(** * E_video: text formatter, composition job and upload handler

    A shallow embedding of the three variants of the service found in the
    repository:

    - [Server]  : src/server.js
    - [Part0a]  : src/unnamed/part_000, first document  (lines 1-185)
    - [Part0b]  : src/unnamed/part_000, second document (lines 186-369)

    JavaScript strings are sequences of UTF-16 code units; [.length] counts
    code units and a regular expression without the [u] flag matches code
    units.  A string is therefore a list of code units, each an [N]. *)

From Stdlib Require Import ZArith Lia String Ascii.
From stdpp Require Import base list gmap.

Local Open Scope list_scope.

(** ** Strings *)

Definition char := N.
Definition jsstring := list char.

(** A literal of the source, as its code units. *)
Definition js (s : string) : jsstring :=
  map N_of_ascii (list_ascii_of_string s).

Definition SP : char := 32%N.        (* " "  *)
Definition LF : char := 10%N.        (* "\n" *)
Definition BSLASH : char := 92%N.    (* "\\" *)
Definition COLON : char := 58%N.     (* ":"  *)
Definition QUOTE : char := 39%N.     (* "'"  *)
Definition COMMA : char := 44%N.     (* ","  *)
Definition DOT : char := 46%N.       (* "."  *)
Definition LOWER_N : char := 110%N.  (* "n"  *)

(** [s.length], as a JavaScript number. *)
Definition len (s : jsstring) : Z := Z.of_nat (length s).

(** [s.split(sep)] for a one-character separator: never the empty array,
    [""] splits into [[""]], adjacent separators give empty tokens. *)
Fixpoint split (sep : char) (s : jsstring) : list jsstring :=
  match s with
  | [] => [[]]
  | c :: r =>
      if N.eqb c sep then [] :: split sep r
      else match split sep r with
           | w :: ws => (c :: w) :: ws
           | [] => [[c]]
           end
  end.

(** [a.join(sep)]. *)
Fixpoint join (sep : jsstring) (a : list jsstring) : jsstring :=
  match a with
  | [] => []
  | x :: r =>
      match r with
      | [] => x
      | _ :: _ => x ++ sep ++ join sep r
      end
  end.

(** [s.replace(/c/g, rep)] for a one-character pattern [c]; none of the
    replacement strings of the source contains a [$]. *)
Definition replaceAll (c : char) (rep : jsstring) (s : jsstring) : jsstring :=
  flat_map (fun x => if N.eqb x c then rep else [x]) s.

(** Method chaining, so that a chain of calls reads as in the source. *)
Notation "x |> f" := (f x) (at level 45, left associativity, only parsing).

(** ** wrapText *)

(** State of the loop of [wrapText]: the array [lines] and [currentLine]. *)
Definition wrap_state := (list jsstring * jsstring)%type.

(** [words[0]]; on an empty array the source reads [undefined], which
    [join] prints as the empty string. *)
Definition first_word (words : list jsstring) : jsstring := hd [] words.

(** The loop [for (let i = 1; i < words.length; i++)] over a body. *)
Definition wrap_loop (body : wrap_state -> jsstring -> wrap_state)
    (words : list jsstring) : wrap_state :=
  fold_left body (tail words) ([], first_word words).

(** [lines.push(currentLine); return lines.join("\n")]. *)
Definition wrap_finish (st : wrap_state) : jsstring :=
  join [LF] (st.1 ++ [st.2]).

(** The body testing [(currentLine + " " + words[i]).length <= maxLength]
    (src/server.js, lines 35-40). *)
Definition wrap_body_concat (maxLength : Z) (st : wrap_state) (w : jsstring)
    : wrap_state :=
  let '(lines, currentLine) := st in
  if (len (currentLine ++ [SP] ++ w) <=? maxLength)%Z
  then (lines, currentLine ++ [SP] ++ w)
  else (lines ++ [currentLine], w).

(** The body testing [currentLine.length + words[i].length + 1 <= maxLength]
    (src/unnamed/part_000, lines 34-39 and 213-218). *)
Definition wrap_body_sum (maxLength : Z) (st : wrap_state) (w : jsstring)
    : wrap_state :=
  let '(lines, currentLine) := st in
  if (len currentLine + len w + 1 <=? maxLength)%Z
  then (lines, currentLine ++ [SP] ++ w)
  else (lines ++ [currentLine], w).

(** The rule in the words of the specification: a token is appended to the
    current line iff [len(currentLine) + 1 + len(token) <= maxLineLength]. *)
Definition wrap_body_rule (maxLineLength : Z) (st : wrap_state)
    (token : jsstring) : wrap_state :=
  let '(lines, currentLine) := st in
  if (len currentLine + 1 + len token <=? maxLineLength)%Z
  then (lines, currentLine ++ [SP] ++ token)
  else (lines ++ [currentLine], token).

Definition wrap_rule (text : jsstring) (maxLineLength : Z) : jsstring :=
  wrap_finish (wrap_loop (wrap_body_rule maxLineLength) (split SP text)).

(** ** Relations between a text and its wrapped form *)

(** The output is the tokens of the text, in order, cut into non-empty
    groups: the tokens of a group are joined by a space, the groups by a
    line feed.  No token is cut and none is lost. *)
Definition keeps_tokens (text out : jsstring) : Prop :=
  exists groups : list (list jsstring),
    concat groups = split SP text
    /\ Forall (fun g => g <> []) groups
    /\ out = join [LF] (map (join [SP]) groups).

(** The output begins with the first token, which is followed by the end
    of the output, a space or a line feed. *)
Definition starts_with_first_token (text out : jsstring) : Prop :=
  exists rest,
    out = first_word (split SP text) ++ rest
    /\ (rest = [] \/ head rest = Some SP \/ head rest = Some LF).

(** A character of the output is the character of the text at the same
    place, or a line feed standing for a space. *)
Definition same_or_break (a b : char) : Prop :=
  a = b \/ (a = SP /\ b = LF).

(** ** escapeText *)

(** One [.replace(/c/g, rep)] of a chain. *)
Definition substitution := (char * jsstring)%type.

Definition applySubstitutions (subs : list substitution) (text : jsstring)
    : jsstring :=
  fold_left (fun acc sub => replaceAll sub.1 sub.2 acc) subs text.

(** The image of one character of the input under an escaping profile:
    [commaDot] for the comma and the period, [lineFeed] for the line feed. *)
Definition escape_char (commaDot lineFeed : bool) (c : char) : jsstring :=
  if N.eqb c BSLASH then [BSLASH; BSLASH]
  else if N.eqb c COLON then [BSLASH; COLON]
  else if commaDot && N.eqb c COMMA then [BSLASH; COMMA]
  else if commaDot && N.eqb c DOT then [BSLASH; DOT]
  else if N.eqb c QUOTE then [BSLASH; QUOTE]
  else if lineFeed && N.eqb c LF then [BSLASH; LOWER_N]
  else [c].

Definition escape_profile (commaDot lineFeed : bool) (text : jsstring)
    : jsstring :=
  flat_map (escape_char commaDot lineFeed) text.

(** Reading from the left, a backslash takes the next character with it;
    the string has no unescaped backslash, colon or single quote when no
    backslash is left alone at the end and no colon or quote stands outside
    such a pair. *)
Fixpoint no_unescaped (s : jsstring) : bool :=
  match s with
  | [] => true
  | c :: r =>
      if N.eqb c BSLASH then
        match r with
        | [] => false
        | _ :: r' => no_unescaped r'
        end
      else if N.eqb c COLON || N.eqb c QUOTE then false
      else no_unescaped r
  end.

(** Modelled from the spec: the unescaping of the consumer of the text
    option, which is not part of the repository.  "Interpreting each
    backslash-introduced pair back to its source character": a backslash
    and the character after it stand for that character, and backslash-n
    for the line feed; every other character stands for itself. *)
Fixpoint unescape (s : jsstring) : jsstring :=
  match s with
  | [] => []
  | c :: r =>
      if N.eqb c BSLASH then
        match r with
        | [] => [c]
        | d :: r' => (if N.eqb d LOWER_N then LF else d) :: unescape r'
        end
      else c :: unescape r
  end.

(** ** The text of a request *)

(** [textData], and the fields of [req.body]: a field that was not sent is
    [undefined], here [None]. *)
Record TextData := {
  doctorName : option jsstring;
  degree : option jsstring;
  mobile : option jsstring;
  address : option jsstring
}.

(** ** The command handed to the media tool *)

(** A path given to [.input]: [null] is [None]. *)
Definition path := option jsstring.

Inductive value :=
  | VStr (s : jsstring)
  | VNum (n : Z).

(** A stage of [complexFilter]: a string, or an object with its options. *)
Record filter := {
  filter_name : jsstring;
  options : list (jsstring * value);
  inputs : jsstring;
  outputs : jsstring
}.

Inductive filterSpec :=
  | FString (s : jsstring)
  | FObject (f : filter).

(** What the chain [ffmpeg().input(..).input(..).complexFilter(..)
    .outputOptions(..).output(..)] has collected when [.run()] is called. *)
Record Command := {
  command_inputs : list path;
  complexFilter : list filterSpec;
  outputOptions : list jsstring;
  output : jsstring
}.

(** [path.join] of normalised segments. *)
Definition path_join (segments : list jsstring) : jsstring :=
  join (js "/") segments.

(** ** Files, exceptions and responses *)

(** The two directories of the service: the paths of the files present
    under [uploadDir] and under [processedDir]. *)
Record FS := {
  uploads : gset jsstring;
  processed : gset jsstring
}.

(** A computation either returns or throws an error with a message; the
    files it touched before stay touched. *)
Inductive outcome (A : Type) :=
  | Ok (a : A)
  | Throw (message : jsstring).
Arguments Ok {A} a.
Arguments Throw {A} message.

Definition M (A : Type) := FS -> outcome A * FS.

Definition ret {A} (a : A) : M A := fun fs => (Ok a, fs).

Definition bind {A B} (m : M A) (k : A -> M B) : M B :=
  fun fs =>
    match m fs with
    | (Ok a, fs') => k a fs'
    | (Throw message, fs') => (Throw message, fs')
    end.

(** Statements in sequence are written [m ;; k]. *)
#[global] Instance M_ret : MRet M := @ret.
#[global] Instance M_bind : MBind M := fun A B k m => bind m k.

(** [fs.unlinkSync(p)] for an uploaded file: removes it, or throws when
    there is no such file. *)
Definition unlinkSync (p : jsstring) : M unit :=
  fun fs =>
    if decide (p ∈ uploads fs)
    then (Ok tt, {| uploads := uploads fs ∖ {[p]}; processed := processed fs |})
    else (Throw (js "ENOENT: no such file or directory, unlink '"
                 ++ p ++ js "'"), fs).

(** [if (file) fs.unlinkSync(file[0].path)]. *)
Definition unlinkIfPresent (file : option jsstring) : M unit :=
  match file with
  | Some p => unlinkSync p
  | None => ret tt
  end.

(** The media tool is an external process: running a command resolves or
    rejects with an error, and may write files. *)
Definition Runner := Command -> M unit.

(** The message of the [TypeError] that the library raises when [.input]
    is given [null]: it looks for a key in its argument. *)
Definition nullInputMessage : jsstring :=
  js "Cannot use 'in' operator to search for 'readable' in null".

(** [.input(source)] of the command chain: a path is taken as it is, and
    [null] makes the call throw, before [.run()] is reached.  Thrown inside
    the executor of the promise, the error rejects the promise. *)
Definition input (source : path) : M unit :=
  match source with
  | Some _ => ret tt
  | None => fun fs => (Throw nullInputMessage, fs)
  end.

(** [req.files] after the multipart middleware: for each of the two file
    fields, the path of its one stored file, if it was sent. *)
Record Files := {
  video : option jsstring;
  background : option jsstring
}.

(** The request as the callback of [upload] sees it, with the reading of
    [Date.now()] printed in decimal. *)
Record Request := {
  err : option jsstring;
  files : option Files;
  body : TextData;
  now : jsstring
}.

Inductive payload :=
  | ErrorPayload (error : jsstring)
  | SuccessPayload (message file downloadUrl : jsstring).

Record Response := {
  status : Z;
  sent : payload
}.

(** [!v] for a field of the form: true for [undefined] and for [""]. *)
Definition falsy (v : option jsstring) : bool :=
  match v with
  | None => true
  | Some [] => true
  | Some (_ :: _) => false
  end.

(** The outcome of the handler: the response sent, if any, and the files. *)
Definition Handled := (option Response * FS)%type.

(** ** The upload middleware *)

(** What the callbacks of the multipart middleware read of a file. *)
Record UploadedFile := {
  fieldname : jsstring;
  originalname : jsstring;
  mimetype : jsstring
}.

(** [s.replace(/[...]/g, rep)] for a class of characters. *)
Definition replaceClass (class : list char) (rep : jsstring) (s : jsstring)
    : jsstring :=
  flat_map (fun x => if existsb (N.eqb x) class then rep else [x]) s.

(** The character class of the three [filename] callbacks: less-than,
    greater-than, colon, double quote, slash, backslash, bar, question
    mark and star. *)
Definition unsafeInName : list char :=
  [60; 62; 58; 34; 47; 92; 124; 63; 42]%N.

Definition UNDERSCORE : char := 95%N.

(** [allowed.includes(mimetype)]. *)
Definition includes (allowed : list jsstring) (x : jsstring) : bool :=
  bool_decide (x ∈ allowed).

(** ** src/server.js *)

Module Server.
Definition uploadDir (dirname : jsstring) : jsstring :=
  path_join [dirname; js "uploads"].
Definition processedDir (dirname : jsstring) : jsstring :=
  path_join [dirname; js "processed"].
Definition fontPath (dirname : jsstring) : jsstring :=
  path_join [dirname; js "fonts"; js "DejaVuSans-Bold.ttf"].

(** [maxLength = 30] *)
Definition defaultMaxLength : Z := 30.

(** Lines 29-44. *)
Definition wrapText (text : jsstring) (maxLength : Z) : jsstring :=
  let words := split SP text in
  wrap_finish (wrap_loop (wrap_body_concat maxLength) words).

(** Lines 46-54. *)
Definition escapeText (text : jsstring) : jsstring :=
  text
    |> replaceAll BSLASH [BSLASH; BSLASH]
    |> replaceAll COLON [BSLASH; COLON]
    |> replaceAll COMMA [BSLASH; COMMA]
    |> replaceAll DOT [BSLASH; DOT]
    |> replaceAll QUOTE [BSLASH; QUOTE]
    |> replaceAll LF [BSLASH; LOWER_N].

(** Lines 59-63: the constant [textBlock]. *)
Definition textBlock (textData : TextData) : jsstring :=
  let doctorName := default [] (doctorName textData) in
  let degree := default [] (degree textData) in
  let mobile := default [] (mobile textData) in
  let address := default [] (address textData) in
  [QUOTE]
  ++ escapeText
       (wrapText (js "Doctor: " ++ doctorName) defaultMaxLength ++ [LF]
        ++ wrapText (js "Mobile: " ++ mobile) defaultMaxLength ++ [LF]
        ++ wrapText (js "Address: " ++ address) defaultMaxLength ++ [LF]
        ++ wrapText (js "Degree: " ++ degree) defaultMaxLength)
  ++ [QUOTE].

(** Lines 65-92: the command on which [.run()] is called. *)
Definition command (dirname : jsstring)
    (videoPath backgroundPath : path) (outputPath : jsstring)
    (textData : TextData) : Command :=
  {| command_inputs := [backgroundPath; videoPath];
     complexFilter :=
       [ FString (js "[0:v]scale=960:720[bg]");
         FString (js "[1:v]scale=-1:720[vid]");
         FString (js "[bg][vid]overlay=x=(W-w)/2:y=0[tmp]");
         FObject
           {| filter_name := js "drawtext";
              options :=
                [ (js "fontfile", VStr (fontPath dirname));
                  (js "text", VStr (textBlock textData));
                  (js "fontsize", VNum 20);
                  (js "fontcolor", VStr (js "white"));
                  (js "box", VNum 1);
                  (js "boxcolor", VStr (js "black@0.8"));
                  (js "boxborderw", VNum 20);
                  (js "x", VNum 50);
                  (js "y", VStr (js "h-text_h"));
                  (js "line_spacing", VNum 10);
                  (js "fix_bounds", VNum 1) ];
              inputs := js "tmp";
              outputs := js "final" |} ];
     outputOptions :=
       [js "-map"; js "[final]"; js "-map"; js "1:a?"; js "-c:a";
        js "copy"; js "-y"];
     output := outputPath |}.

(** Lines 57-98: the two inputs are added, background first, and the
    promise resolves or rejects as the run does. *)
Definition processVideoWithBackground (run : Runner) (dirname : jsstring)
    (videoPath backgroundPath : path) (outputPath : jsstring)
    (textData : TextData) : M unit :=
  input backgroundPath ;;
  input videoPath ;;
  run (command dirname videoPath backgroundPath outputPath textData).

(** Lines 104-105: the name under which a file is stored; [now] is
    [Date.now()] printed in decimal. *)
Definition filename (now : jsstring) (file : UploadedFile) : jsstring :=
  now ++ js "_" ++ replaceClass unsafeInName [UNDERSCORE] (originalname file).

(** Lines 107-111. *)
Definition allowed : list jsstring :=
  [js "video/mp4"; js "image/jpeg"; js "image/png"].

Definition fileFilter (file : UploadedFile) : outcome bool :=
  if includes allowed (mimetype file) then Ok true
  else Throw (js "Invalid file type").

(** Line 112. *)
Definition fileSize : Z := 100 * 1024 * 1024.

(** Lines 119-156: the callback of [upload] in [app.post("/upload")]. *)
Definition uploadHandler (run : Runner) (dirname : jsstring)
    (req : Request) (fs : FS) : Handled :=
  match err req with
  | Some message =>
      (Some {| status := 400; sent := ErrorPayload message |}, fs)
  | None =>
      let videoFile := files req ≫= video in
      let bgFile := files req ≫= background in
      let refused :=
        (Some {| status := 400;
                 sent := ErrorPayload
                           (js "All fields and files are required.") |},
         fs) in
      match videoFile, bgFile with
      | Some videoFile, Some bgFile =>
          if falsy (doctorName (body req)) || falsy (degree (body req))
             || falsy (mobile (body req)) || falsy (address (body req))
          then refused
          else
            let outputName := js "output_" ++ now req ++ js ".mp4" in
            let outputPath := path_join [processedDir dirname; outputName] in
            let attempt :=
              processVideoWithBackground run dirname
                (Some videoFile) (Some bgFile) outputPath (body req) ;;
              unlinkSync videoFile ;;
              unlinkSync bgFile in
            match attempt fs with
            | (Ok _, fs') =>
                (Some {| status := 200;
                         sent := SuccessPayload
                                   (js "Video processed successfully.")
                                   outputName
                                   (js "/processed/" ++ outputName) |},
                 fs')
            | (Throw _, fs') =>
                (Some {| status := 500;
                         sent := ErrorPayload
                                   (js "Video processing failed.") |},
                 fs')
            end
      | _, _ => refused
      end
  end.
End Server.

(** ** src/unnamed/part_000, first document (lines 1-185) *)

Module Part0a.
Definition uploadDir (dirname : jsstring) : jsstring :=
  path_join [dirname; js "uploads"].
Definition processedDir (dirname : jsstring) : jsstring :=
  path_join [dirname; js "processed"].
Definition fontPath (dirname : jsstring) : jsstring :=
  path_join [dirname; js "fonts"; js "DejaVuSans-Bold.ttf"].

(** [maxLength = 50] *)
Definition defaultMaxLength : Z := 50.

(** Lines 28-43. *)
Definition wrapText (text : jsstring) (maxLength : Z) : jsstring :=
  let words := split SP text in
  wrap_finish (wrap_loop (wrap_body_sum maxLength) words).

(** Lines 45-50: no substitution for the line feed, and the result comes
    back between single quotes. *)
Definition escapeText (text : jsstring) : jsstring :=
  [QUOTE]
  ++ (text
        |> replaceAll BSLASH [BSLASH; BSLASH]
        |> replaceAll COLON [BSLASH; COLON]
        |> replaceAll QUOTE [BSLASH; QUOTE])
  ++ [QUOTE].

(** Lines 55-62: the constant [textBlock]. *)
Definition textBlock (textData : TextData) : jsstring :=
  let doctorName := default [] (doctorName textData) in
  let degree := default [] (degree textData) in
  let mobile := default [] (mobile textData) in
  let address := default [] (address textData) in
  let wrappedDoctorName :=
    wrapText (js "Doctor: " ++ doctorName) defaultMaxLength in
  let wrappedMobile := wrapText (js "Mobile: " ++ mobile) defaultMaxLength in
  let wrappedAddress :=
    wrapText (js "Address: " ++ address) defaultMaxLength in
  let wrappedDegree := wrapText (js "Degree: " ++ degree) defaultMaxLength in
  escapeText
    (wrappedDoctorName ++ [LF] ++ wrappedMobile ++ [LF]
     ++ wrappedAddress ++ [LF] ++ wrappedDegree).

(** Lines 64-102. *)
Definition command (dirname : jsstring)
    (videoPath backgroundPath : path) (outputPath : jsstring)
    (textData : TextData) : Command :=
  {| command_inputs := [backgroundPath; videoPath];
     complexFilter :=
       [ FString (js "[0:v]scale=960:720[bg]");
         FString (js "[1:v]scale=-1:720[vid]");
         FString (js "[bg][vid]overlay=x=(W-w)/2:y=0[tmp]");
         FObject
           {| filter_name := js "drawbox";
              options :=
                [ (js "x", VNum 0);
                  (js "y", VStr (js "h-(h-1000)/2"));
                  (js "width", VStr (js "iw"));
                  (js "height", VNum 170);
                  (js "color", VStr (js "black@1.0"));
                  (js "t", VStr (js "fill")) ];
              inputs := js "tmp";
              outputs := js "boxed" |};
         FObject
           {| filter_name := js "drawtext";
              options :=
                [ (js "fontfile", VStr (fontPath dirname));
                  (js "text", VStr (textBlock textData));
                  (js "fontsize", VNum 24);
                  (js "fontcolor", VStr (js "white"));
                  (js "box", VNum 0);
                  (js "x", VStr (js "(w-text_w)/2"));
                  (js "y", VStr (js "h-90"));
                  (js "line_spacing", VNum 10);
                  (js "fix_bounds", VNum 1) ];
              inputs := js "boxed";
              outputs := js "final" |} ];
     outputOptions :=
       [js "-map"; js "[final]"; js "-map"; js "1:a?"; js "-c:a";
        js "copy"; js "-y"];
     output := outputPath |}.

(** Lines 53-114: the two inputs are added, background first, and the
    promise resolves or rejects as the run does. *)
Definition processVideoWithBackground (run : Runner) (dirname : jsstring)
    (videoPath backgroundPath : path) (outputPath : jsstring)
    (textData : TextData) : M unit :=
  input backgroundPath ;;
  input videoPath ;;
  run (command dirname videoPath backgroundPath outputPath textData).

(** Lines 120-121: the name under which a file is stored; [now] is
    [Date.now()] printed in decimal. *)
Definition filename (now : jsstring) (file : UploadedFile) : jsstring :=
  now ++ js "_" ++ replaceClass unsafeInName [UNDERSCORE] (originalname file).

(** Lines 123-127. *)
Definition allowed : list jsstring :=
  [js "video/mp4"; js "image/jpeg"; js "image/png"].

Definition fileFilter (file : UploadedFile) : outcome bool :=
  if includes allowed (mimetype file) then Ok true
  else Throw (js "Invalid file type").

(** Line 128. *)
Definition fileSize : Z := 100 * 1024 * 1024.

(** Lines 137-169: the [try] block; a [return res.status(..).send(..)]
    is the response returned. *)
Definition uploadBody (run : Runner) (dirname : jsstring) (req : Request)
    : M Response :=
  match err req with
  | Some message => ret {| status := 400; sent := ErrorPayload message |}
  | None =>
      match files req ≫= video with
      | None =>
          ret {| status := 400;
                 sent := ErrorPayload (js "No video file uploaded") |}
      | Some videoPath =>
          let background := files req ≫= background in
          if falsy (doctorName (body req)) || falsy (degree (body req))
             || falsy (mobile (body req)) || falsy (address (body req))
          then
            unlinkSync videoPath ;;
            unlinkIfPresent background ;;
            ret {| status := 400;
                   sent := ErrorPayload (js "All fields are required") |}
          else
            let backgroundPath := background in
            let safeFilename := js "output_" ++ now req ++ js ".mp4" in
            let outputPath :=
              path_join [processedDir dirname; safeFilename] in
            processVideoWithBackground run dirname
              (Some videoPath) backgroundPath outputPath (body req) ;;
            unlinkIfPresent background ;;
            unlinkSync videoPath ;;
            ret {| status := 200;
                   sent := SuccessPayload
                             (js "Video processed successfully")
                             safeFilename
                             (js "/processed/" ++ safeFilename) |}
      end
  end.

(** Lines 135-177: the [try] block and its [catch]; an error thrown in
    the [catch] block leaves the callback and no response is sent. *)
Definition uploadHandler (run : Runner) (dirname : jsstring)
    (req : Request) (fs : FS) : Handled :=
  match uploadBody run dirname req fs with
  | (Ok response, fs') => (Some response, fs')
  | (Throw message, fs') =>
      let cleanup :=
        unlinkIfPresent (files req ≫= video) ;;
        unlinkIfPresent (files req ≫= background) in
      match cleanup fs' with
      | (Ok _, fs'') =>
          (Some {| status := 500; sent := ErrorPayload message |}, fs'')
      | (Throw _, fs'') => (None, fs'')
      end
  end.
End Part0a.

(** ** src/unnamed/part_000, second document (lines 186-369) *)

Module Part0b.
Definition uploadDir (dirname : jsstring) : jsstring :=
  path_join [dirname; js "uploads"].
Definition processedDir (dirname : jsstring) : jsstring :=
  path_join [dirname; js "processed"].

(** [maxLength = 30] *)
Definition defaultMaxLength : Z := 30.

(** Lines 207-222. *)
Definition wrapText (text : jsstring) (maxLength : Z) : jsstring :=
  let words := split SP text in
  wrap_finish (wrap_loop (wrap_body_sum maxLength) words).

(** Lines 224-230. *)
Definition escapeText (text : jsstring) : jsstring :=
  text
    |> replaceAll BSLASH [BSLASH; BSLASH]
    |> replaceAll COLON [BSLASH; COLON]
    |> replaceAll QUOTE [BSLASH; QUOTE]
    |> replaceAll LF [BSLASH; LOWER_N].

(** Lines 235-243: the constant [textBlock]; no quotes are put around
    the escaped text. *)
Definition textBlock (textData : TextData) : jsstring :=
  let doctorName := default [] (doctorName textData) in
  let degree := default [] (degree textData) in
  let mobile := default [] (mobile textData) in
  let address := default [] (address textData) in
  let wrappedDoctorName :=
    wrapText (js "Doctor: " ++ doctorName) defaultMaxLength in
  let wrappedDegree := wrapText (js "Degree: " ++ degree) defaultMaxLength in
  let wrappedMobile := wrapText (js "Mobile: " ++ mobile) defaultMaxLength in
  let wrappedAddress :=
    wrapText (js "Address: " ++ address) defaultMaxLength in
  let rawTextBlock :=
    wrappedDoctorName ++ [LF] ++ wrappedMobile ++ [LF]
    ++ wrappedAddress ++ [LF] ++ wrappedDegree in
  escapeText rawTextBlock.

(** Lines 245-272. *)
Definition command (videoPath backgroundPath : path) (outputPath : jsstring)
    (textData : TextData) : Command :=
  {| command_inputs := [backgroundPath; videoPath];
     complexFilter :=
       [ FString (js "[0:v]scale=960:720[bg]");
         FString (js "[1:v]scale=-1:720[vid]");
         FString (js "[bg][vid]overlay=x=(W-w)/2:y=0[tmp]");
         FObject
           {| filter_name := js "drawtext";
              options :=
                [ (js "fontfile",
                   VStr (js "/usr/share/fonts/truetype/dejavu/DejaVuSans-Bold.ttf"));
                  (js "text", VStr (textBlock textData));
                  (js "fontsize", VNum 20);
                  (js "fontcolor", VStr (js "white"));
                  (js "box", VNum 1);
                  (js "boxcolor", VStr (js "black@0.9"));
                  (js "boxborderw", VNum 30);
                  (js "x", VNum 50);
                  (js "y", VStr (js "h-text_h"));
                  (js "line_spacing", VNum 10);
                  (js "fix_bounds", VNum 1) ];
              inputs := js "tmp";
              outputs := js "final" |} ];
     outputOptions :=
       [js "-map"; js "[final]"; js "-map"; js "1:a?"; js "-c:a";
        js "copy"; js "-y"];
     output := outputPath |}.

(** Lines 233-278: the two inputs are added, background first, and the
    promise resolves or rejects as the run does. *)
Definition processVideoWithBackground (run : Runner)
    (videoPath backgroundPath : path) (outputPath : jsstring)
    (textData : TextData) : M unit :=
  input backgroundPath ;;
  input videoPath ;;
  run (command videoPath backgroundPath outputPath textData).

(** Lines 281-290. *)
Definition ALLOWED_MIME_TYPES : list jsstring :=
  [js "video/mp4"; js "video/quicktime"; js "video/x-msvideo";
   js "image/jpeg"; js "image/png"; js "image/gif"; js "image/webp";
   js "image/jpg"].

(** Lines 296-299: [safeName]. *)
Definition filename (now : jsstring) (file : UploadedFile) : jsstring :=
  now ++ js "_" ++ replaceClass unsafeInName [UNDERSCORE] (originalname file).

(** Lines 302-308. *)
Definition fileFilter (file : UploadedFile) : outcome bool :=
  if includes ALLOWED_MIME_TYPES (mimetype file) then Ok true
  else Throw (js "Invalid file type.").

(** Line 313. *)
Definition fileSize : Z := 100 * 1024 * 1024.

(** Lines 325-353: the [try] block. *)
Definition uploadBody (run : Runner) (dirname : jsstring) (req : Request)
    : M Response :=
  match files req ≫= video with
  | None =>
      ret {| status := 400; sent := ErrorPayload (js "No video uploaded.") |}
  | Some videoPath =>
      let background := files req ≫= background in
      if falsy (doctorName (body req)) || falsy (degree (body req))
         || falsy (mobile (body req)) || falsy (address (body req))
      then
        unlinkSync videoPath ;;
        unlinkIfPresent background ;;
        ret {| status := 400;
               sent := ErrorPayload (js "All fields are required.") |}
      else
        let backgroundPath := background in
        let safeFilename := js "output_" ++ now req ++ js ".mp4" in
        let outputPath := path_join [processedDir dirname; safeFilename] in
        processVideoWithBackground run
          (Some videoPath) backgroundPath outputPath (body req) ;;
        unlinkIfPresent background ;;
        unlinkSync videoPath ;;
        ret {| status := 200;
               sent := SuccessPayload
                         (js "Video processed successfully.")
                         safeFilename
                         (js "/processed/" ++ safeFilename) |}
  end.

(** Lines 320-361: the test of [err], then the [try] block and its
    [catch]. *)
Definition uploadHandler (run : Runner) (dirname : jsstring)
    (req : Request) (fs : FS) : Handled :=
  match err req with
  | Some message =>
      (Some {| status := 400; sent := ErrorPayload message |}, fs)
  | None =>
      match uploadBody run dirname req fs with
      | (Ok response, fs') => (Some response, fs')
      | (Throw message, fs') =>
          let cleanup :=
            unlinkIfPresent (files req ≫= video) ;;
            unlinkIfPresent (files req ≫= background) in
          match cleanup fs' with
          | (Ok _, fs'') =>
              (Some {| status := 500; sent := ErrorPayload message |}, fs'')
          | (Throw _, fs'') => (None, fs'')
          end
      end
  end.
End Part0b.

(** ** Lines, counts and options *)

(** A line of the output: a non-empty group of tokens that fits the width,
    or a single token. *)
Definition fits_or_single (m : Z) (g : list jsstring) : Prop :=
  g <> [] /\ ((len (join [SP] g) <= m)%Z \/ exists w, g = [w]).

(** The first token of each line after [g1] did not fit at the end of the
    line before it. *)
Fixpoint greedy_from (m : Z) (g1 : list jsstring)
    (rest : list (list jsstring)) : Prop :=
  match rest with
  | [] => True
  | g2 :: rest' =>
      (m < len (join [SP] g1) + len (first_word g2) + 1)%Z
      /\ greedy_from m g2 rest'
  end.

Definition greedy (m : Z) (groups : list (list jsstring)) : Prop :=
  match groups with
  | [] => True
  | g :: rest => greedy_from m g rest
  end.

(** The output is the tokens of the text cut into lines, and every line
    fits the width or is a single token. *)
Definition lines_fit (m : Z) (text out : jsstring) : Prop :=
  exists groups : list (list jsstring),
    concat groups = split SP text
    /\ out = join [LF] (map (join [SP]) groups)
    /\ Forall (fits_or_single m) groups.

(** The output is the tokens of the text cut into lines, and a line ends
    only where the next token did not fit. *)
Definition breaks_forced (m : Z) (text out : jsstring) : Prop :=
  exists groups : list (list jsstring),
    concat groups = split SP text
    /\ Forall (fun g => g <> []) groups
    /\ out = join [LF] (map (join [SP]) groups)
    /\ greedy m groups.

(** The number of occurrences of a character. *)
Definition count_char (c : char) (s : jsstring) : nat :=
  length (List.filter (N.eqb c) s).

(** The characters to which a profile gives a backslash. *)
Definition escaped_by (commaDot lineFeed : bool) (c : char) : bool :=
  N.eqb c BSLASH || N.eqb c COLON
  || (commaDot && (N.eqb c COMMA || N.eqb c DOT))
  || N.eqb c QUOTE || (lineFeed && N.eqb c LF).

(** The value of an option of a filter stage. *)
Fixpoint optionOf (key : jsstring) (opts : list (jsstring * value))
    : option value :=
  match opts with
  | [] => None
  | (k, v) :: rest => if bool_decide (k = key) then Some v else optionOf key rest
  end.

(** The [text] option of the first [drawtext] stage of a command. *)
Fixpoint textOfStages (stages : list filterSpec) : option value :=
  match stages with
  | [] => None
  | FObject f :: rest =>
      if bool_decide (filter_name f = js "drawtext")
      then optionOf (js "text") (options f)
      else textOfStages rest
  | FString _ :: rest => textOfStages rest
  end.

Definition textOption (c : Command) : option value :=
  textOfStages (complexFilter c).

(** The status of the response, if one was sent. *)
Definition statusOf (h : Handled) : option Z := status <$> h.1.

(** ** What the statements below speak about *)

(** The four labelled lines, each wrapped on its own, joined by line feeds
    in the order name, mobile, address, degree. *)
Definition labelledLines (wrapText : jsstring -> Z -> jsstring) (width : Z)
    (textData : TextData) : jsstring :=
  join [LF]
    [ wrapText (js "Doctor: " ++ default [] (doctorName textData)) width;
      wrapText (js "Mobile: " ++ default [] (mobile textData)) width;
      wrapText (js "Address: " ++ default [] (address textData)) width;
      wrapText (js "Degree: " ++ default [] (degree textData)) width ].

(** The label of the buffer that the last stage of the filter graph
    writes. *)
Definition lastStageOutputs (c : Command) : option jsstring :=
  match last (complexFilter c) with
  | Some (FObject f) => Some (outputs f)
  | _ => None
  end.

(** One of the four text fields is missing or empty. *)
Definition fieldsMissing (b : TextData) : bool :=
  falsy (doctorName b) || falsy (degree b) || falsy (mobile b)
  || falsy (address b).

(** The request is refused with status 400 and an error message, and
    nothing is written under the processed directory. *)
Definition refused (fs : FS) (h : Handled) (message : jsstring) : Prop :=
  exists fs',
    h = (Some {| status := 400; sent := ErrorPayload message |}, fs')
    /\ processed fs' = processed fs.

(** The request is refused as above, and the stored video [v] and the
    stored background, if any, are removed; no other upload appears. *)
Definition refusedAndCleaned (v : jsstring) (bg : option jsstring) (fs : FS)
    (h : Handled) (message : jsstring) : Prop :=
  exists fs',
    h = (Some {| status := 400; sent := ErrorPayload message |}, fs')
    /\ processed fs' = processed fs
    /\ (v ∉ uploads fs')
    /\ (forall b, bg = Some b -> b ∉ uploads fs')
    /\ (uploads fs' ⊆ uploads fs).

(** The fields of the example of the specification. *)
Definition janeDoe : TextData :=
  {| doctorName := Some (js "Jane Doe");
     degree := Some (js "MD");
     mobile := Some (js "555-1234");
     address := Some (js "1 Main St") |}.

(** A request with both files stored and no [address]. *)
Definition storedVideo : jsstring := js "/srv/uploads/1700000000000_clip.mp4".
Definition storedBackground : jsstring := js "/srv/uploads/1700000000000_bg.png".

Definition requestWithoutAddress : Request :=
  {| err := None;
     files := Some {| video := Some storedVideo;
                      background := Some storedBackground |};
     body := {| doctorName := Some (js "Jane Doe");
                degree := Some (js "MD");
                mobile := Some (js "555-1234");
                address := None |};
     now := js "1700000000001" |}.

(** A request with all four fields and a background, but no video. *)
Definition requestWithoutVideo : Request :=
  {| err := None;
     files := Some {| video := None; background := Some storedBackground |};
     body := janeDoe;
     now := js "1700000000001" |}.

Definition filesOfRequestWithoutAddress : FS :=
  {| uploads := {[ storedVideo; storedBackground ]}; processed := ∅ |}.

Definition filesOfRequestWithoutVideo : FS :=
  {| uploads := {[ storedBackground ]}; processed := ∅ |}.

(** A media tool that always succeeds and writes the output file. *)
Definition runWriting : Runner :=
  fun cmd fs =>
    (Ok tt, {| uploads := uploads fs;
               processed := {[ output cmd ]} ∪ processed fs |}).

(** A computation that leaves no file under the uploads directory that
    was not there before. *)
Definition no_new_upload {A} (m : M A) : Prop :=
  forall fs, uploads (m fs).2 ⊆ uploads fs.

(** The request is answered with a status and a payload after the stored
    video [v] and the stored background, if any, were removed from the
    files [fs1] that the media tool left. *)
Definition answeredAndCleaned (v : jsstring) (bg : option jsstring) (fs1 : FS)
    (h : Handled) (response : Response) : Prop :=
  exists fs',
    h = (Some response, fs')
    /\ processed fs' = processed fs1
    /\ (v ∉ uploads fs')
    /\ (forall b, bg = Some b -> b ∉ uploads fs')
    /\ (uploads fs' ⊆ uploads fs1).

(** A media tool that always fails and touches no file. *)
Definition runFailing (message : jsstring) : Runner :=
  fun _ fs => (Throw message, fs).

(** A request with all four fields and both files. *)
Definition completeRequest : Request :=
  {| err := None;
     files := Some {| video := Some storedVideo;
                      background := Some storedBackground |};
     body := janeDoe;
     now := js "1700000000001" |}.

(** A request with all four fields and its video, but no background. *)
Definition requestWithoutBackground : Request :=
  {| err := None;
     files := Some {| video := Some storedVideo; background := None |};
     body := janeDoe;
     now := js "1700000000001" |}.

Definition filesOfRequestWithoutBackground : FS :=
  {| uploads := {[ storedVideo ]}; processed := ∅ |}.

(** A request without [address] whose two files were stored under the
    same path. *)
Definition requestWithOnePath : Request :=
  {| err := None;
     files := Some {| video := Some storedVideo;
                      background := Some storedVideo |};
     body := {| doctorName := Some (js "Jane Doe");
                degree := Some (js "MD");
                mobile := Some (js "555-1234");
                address := None |};
     now := js "1700000000001" |}.

(** * Properties *)

Example split_example :
  split SP (js "a  b c") = [js "a"; js ""; js "b"; js "c"].
Proof. reflexivity. Qed.

Example wrap_example :
  Server.wrapText (js "Address: 12 Long Street Name, Some City 4000") 30
  = js "Address: 12 Long Street Name," ++ [LF] ++ js "Some City 4000".
Proof. vm_compute. reflexivity. Qed.

(** ** The two tests of the loop agree *)

Lemma len_app (s t : jsstring) : len (s ++ t) = (len s + len t)%Z.
Proof. unfold len. rewrite length_app. lia. Qed.

Lemma wrap_body_concat_sum m st w :
  wrap_body_concat m st w = wrap_body_sum m st w.
Proof.
  destruct st as [lines cur]. unfold wrap_body_concat, wrap_body_sum.
  rewrite !len_app. change (len [SP]) with 1%Z.
  replace (len cur + (1 + len w))%Z with (len cur + len w + 1)%Z by lia.
  reflexivity.
Qed.

Lemma wrap_body_rule_sum m st w :
  wrap_body_rule m st w = wrap_body_sum m st w.
Proof.
  destruct st as [lines cur]. unfold wrap_body_rule, wrap_body_sum.
  replace (len cur + 1 + len w)%Z with (len cur + len w + 1)%Z by lia.
  reflexivity.
Qed.

Lemma fold_left_ext_body {A B} (f g : A -> B -> A) (l : list B) (a : A) :
  (forall x y, f x y = g x y) -> fold_left f l a = fold_left g l a.
Proof.
  intros Hfg. revert a. induction l as [|y l IH]; intros a; simpl.
  - reflexivity.
  - rewrite Hfg. apply IH.
Qed.

Lemma wrapText_concat_sum text m :
  Server.wrapText text m = Part0a.wrapText text m.
Proof.
  unfold Server.wrapText, Part0a.wrapText, wrap_loop.
  f_equal. apply fold_left_ext_body, wrap_body_concat_sum.
Qed.

Lemma wrapText_rule_sum text m :
  wrap_rule text m = Part0a.wrapText text m.
Proof.
  unfold wrap_rule, Part0a.wrapText, wrap_loop.
  f_equal. apply fold_left_ext_body, wrap_body_rule_sum.
Qed.

Lemma wrapText_Part0b_Part0a text m :
  Part0b.wrapText text m = Part0a.wrapText text m.
Proof. reflexivity. Qed.

(** C3. The implementation that measures [currentLine + " " + words[i]]
    and the ones that add [currentLine.length + words[i].length + 1] return
    the same string on every input and every [maxLength], and both are the
    rule "append iff len(currentLine) + 1 + len(token) <= maxLineLength". *)
Theorem wrapText_implementations_agree (text : jsstring) (maxLength : Z) :
  Server.wrapText text maxLength = Part0a.wrapText text maxLength
  /\ Server.wrapText text maxLength = Part0b.wrapText text maxLength
  /\ Server.wrapText text maxLength = wrap_rule text maxLength
  /\ Part0a.wrapText text maxLength = wrap_rule text maxLength.
Proof.
  pose proof (wrapText_concat_sum text maxLength) as Hcs.
  pose proof (wrapText_rule_sum text maxLength) as Hrs.
  pose proof (wrapText_Part0b_Part0a text maxLength) as Hba.
  repeat split; congruence.
Qed.

(** C8. The empty string splits into exactly one empty token and wraps to
    the empty string, whatever the width. *)
Theorem wrapText_empty (maxLength : Z) :
  split SP [] = [[]]
  /\ Server.wrapText [] maxLength = []
  /\ Part0a.wrapText [] maxLength = []
  /\ Part0b.wrapText [] maxLength = [].
Proof. repeat split. Qed.

(** ** split and join *)

Lemma split_nonempty sep s : split sep s <> [].
Proof.
  destruct s as [|c r]; simpl; [done|].
  destruct (N.eqb c sep); [done|]. by destruct (split sep r).
Qed.

Lemma split_first_tail sep s :
  split sep s = first_word (split sep s) :: tail (split sep s).
Proof. pose proof (split_nonempty sep s). by destruct (split sep s). Qed.

Lemma join_cons sep x l :
  l <> [] -> join sep (x :: l) = x ++ sep ++ join sep l.
Proof. by destruct l. Qed.

Lemma join_app sep l1 l2 :
  l1 <> [] -> l2 <> [] ->
  join sep (l1 ++ l2) = join sep l1 ++ sep ++ join sep l2.
Proof.
  induction l1 as [|x l1 IH]; intros H1 H2; [done|].
  destruct l1 as [|y l1].
  - simpl app. by rewrite join_cons.
  - change ((x :: y :: l1) ++ l2) with (x :: ((y :: l1) ++ l2)).
    rewrite !join_cons by done. rewrite IH by done.
    by rewrite <- !app_assoc.
Qed.

Lemma join_cons_concat sep x l :
  join [sep] (x :: l) = x ++ concat (map (cons sep) l).
Proof.
  revert x. induction l as [|y l IH]; intros x.
  - simpl. by rewrite app_nil_r.
  - rewrite join_cons by done. rewrite IH. reflexivity.
Qed.

(** Joining the tokens with the separator gives the text back. *)
Lemma join_split sep s : join [sep] (split sep s) = s.
Proof.
  induction s as [|c r IH]; [done|]. simpl split.
  destruct (N.eqb_spec c sep) as [->|Hne].
  - rewrite join_cons by apply split_nonempty. by rewrite IH.
  - pose proof (split_nonempty sep r) as Hr.
    destruct (split sep r) as [|w ws]; [done|].
    rewrite join_cons_concat in *. simpl. by rewrite IH.
Qed.

(** ** A short text stays on one line *)

Lemma wrap_loop_fits m ws : forall lines cur,
  (len (cur ++ concat (map (cons SP) ws)) <= m)%Z ->
  fold_left (wrap_body_sum m) ws (lines, cur)
  = (lines, cur ++ concat (map (cons SP) ws)).
Proof.
  induction ws as [|w ws IH]; intros lines cur Hlen; simpl.
  - by rewrite app_nil_r.
  - rewrite !len_app in Hlen. simpl in Hlen.
    assert (Hw : (len cur + len w + 1 <=? m)%Z = true).
    { apply Z.leb_le. unfold len in *. simpl in Hlen.
      rewrite length_app in Hlen. lia. }
    rewrite Hw. rewrite IH.
    + f_equal. by rewrite <- !app_assoc.
    + rewrite <- app_assoc. simpl. rewrite !len_app. simpl.
      unfold len in *. simpl in *. rewrite !length_app in *. simpl. lia.
Qed.

Lemma wrapText_fits text m :
  (len text <= m)%Z -> Part0a.wrapText text m = text.
Proof.
  intros Hlen. unfold Part0a.wrapText, wrap_loop, wrap_finish.
  pose proof (join_split SP text) as Hjs.
  rewrite split_first_tail, join_cons_concat in Hjs.
  rewrite wrap_loop_fits by (rewrite Hjs; exact Hlen).
  simpl. exact Hjs.
Qed.

(** C6. A string strictly shorter than the wrap width is returned
    unchanged: no line break is inserted. *)
Theorem wrapText_short_unchanged (text : jsstring) (maxLength : Z) :
  (len text < maxLength)%Z ->
  Server.wrapText text maxLength = text
  /\ Part0a.wrapText text maxLength = text
  /\ Part0b.wrapText text maxLength = text.
Proof.
  intros Hlt. rewrite wrapText_concat_sum.
  change (Part0b.wrapText text maxLength) with (Part0a.wrapText text maxLength).
  rewrite wrapText_fits by lia. done.
Qed.

Lemma wrapText_short_unchanged_witness :
  (len (js "Degree: MD") < 30)%Z
  /\ Server.wrapText (js "Degree: MD") 30 = js "Degree: MD"
  /\ Part0a.wrapText (js "Degree: MD") 30 = js "Degree: MD"
  /\ Part0b.wrapText (js "Degree: MD") 30 = js "Degree: MD".
Proof.
  split; [vm_compute; reflexivity|].
  apply (wrapText_short_unchanged (js "Degree: MD") 30).
  vm_compute; reflexivity.
Defined.

(** ** Tokens are kept whole *)

Lemma join_snoc sep l x :
  l <> [] -> join sep (l ++ [x]) = join sep l ++ sep ++ x.
Proof. intros Hl. by rewrite join_app. Qed.

Lemma wrap_body_sum_unfold m lines cur w :
  wrap_body_sum m (lines, cur) w
  = if (len cur + len w + 1 <=? m)%Z
    then (lines, cur ++ [SP] ++ w)
    else (lines ++ [cur], w).
Proof. reflexivity. Qed.

(** The loop, read on groups of tokens: [lines] are the closed groups and
    [currentLine] the open one. *)
Lemma wrap_loop_groups m ws : forall (gs : list (list jsstring)) g,
  g <> [] -> Forall (fun g => g <> []) gs ->
  exists gs' g',
    fold_left (wrap_body_sum m) ws (map (join [SP]) gs, join [SP] g)
    = (map (join [SP]) gs', join [SP] g')
    /\ g' <> []
    /\ Forall (fun g => g <> []) gs'
    /\ concat gs' ++ g' = concat gs ++ g ++ ws.
Proof.
  induction ws as [|w ws IH]; intros gs g Hg Hgs.
  - exists gs, g. by rewrite app_nil_r.
  - cbn [fold_left]. rewrite wrap_body_sum_unfold.
    destruct (len (join [SP] g) + len w + 1 <=? m)%Z.
    + destruct (IH gs (g ++ [w])) as (gs' & g' & Hfold & Hg' & Hgs' & Hcat).
      { by destruct g. }
      { done. }
      exists gs', g'. rewrite join_snoc in Hfold by done.
      split_and!; [exact Hfold|done|done|].
      by rewrite Hcat, <- app_assoc.
    + destruct (IH (gs ++ [g]) [w]) as (gs' & g' & Hfold & Hg' & Hgs' & Hcat).
      { done. }
      { apply Forall_app. split; [done|]. by constructor. }
      exists gs', g'. rewrite map_app in Hfold.
      split_and!; [exact Hfold|done|done|].
      rewrite Hcat, concat_app. simpl.
      by rewrite app_nil_r, <- app_assoc.
Qed.

Lemma wrapText_keeps_tokens text m : keeps_tokens text (Part0a.wrapText text m).
Proof.
  unfold keeps_tokens, Part0a.wrapText, wrap_loop, wrap_finish.
  destruct (wrap_loop_groups m (tail (split SP text)) [] [first_word (split SP text)])
    as (gs & g & Hfold & Hg & Hgs & Hcat); [done|constructor|].
  simpl in Hfold. rewrite Hfold. simpl fst; simpl snd.
  exists (gs ++ [g]). split_and!.
  - rewrite concat_app. simpl. rewrite app_nil_r, Hcat. simpl.
    symmetry. apply split_first_tail.
  - apply Forall_app. split; [done|]. by constructor.
  - by rewrite map_app.
Qed.

Lemma keeps_tokens_starts text out :
  keeps_tokens text out -> starts_with_first_token text out.
Proof.
  intros (groups & Hcat & Hne & ->). unfold starts_with_first_token.
  rewrite <- Hcat. clear Hcat.
  destruct groups as [|g gs]; [exists []; split; [reflexivity|by left]|].
  apply Forall_cons in Hne as [Hg Hgs].
  destruct g as [|w g]; [done|]. simpl first_word.
  destruct g as [|w' g].
  - destruct gs as [|g' gs].
    + exists []. simpl. rewrite app_nil_r. split; [reflexivity|by left].
    + exists ([LF] ++ join [LF] (map (join [SP]) (g' :: gs))).
      split; [|right; right; reflexivity]. by rewrite map_cons, join_cons.
  - exists ([SP] ++ join [SP] (w' :: g)
            ++ match gs with
               | [] => []
               | _ :: _ => [LF] ++ join [LF] (map (join [SP]) gs)
               end).
    split; [|right; left; reflexivity].
    rewrite map_cons. rewrite (join_cons [SP] w (w' :: g)) by done.
    destruct gs as [|g' gs].
    + simpl. by rewrite !app_nil_r.
    + rewrite join_cons by done. by rewrite <- !app_assoc.
Qed.

(** C7. In every variant the output is the tokens of the input, whole and
    in order, separated by a space inside a line and by a line feed
    between lines, and it begins with the first token whatever its
    length. *)
Theorem wrapText_never_breaks_tokens (text : jsstring) (maxLength : Z) :
  (keeps_tokens text (Server.wrapText text maxLength)
   /\ starts_with_first_token text (Server.wrapText text maxLength))
  /\ (keeps_tokens text (Part0a.wrapText text maxLength)
      /\ starts_with_first_token text (Part0a.wrapText text maxLength))
  /\ (keeps_tokens text (Part0b.wrapText text maxLength)
      /\ starts_with_first_token text (Part0b.wrapText text maxLength)).
Proof.
  rewrite wrapText_concat_sum.
  change (Part0b.wrapText text maxLength) with (Part0a.wrapText text maxLength).
  pose proof (wrapText_keeps_tokens text maxLength) as Hk.
  pose proof (keeps_tokens_starts _ _ Hk) as Hs.
  done.
Qed.

Example wrapText_long_first_token :
  Server.wrapText (js "Pneumonoultramicroscopic it is") 10
  = js "Pneumonoultramicroscopic" ++ [LF] ++ js "it is".
Proof. vm_compute. reflexivity. Qed.

(** ** Wrapping only turns spaces into line feeds *)

Lemma Forall2_same_or_break_refl (s : jsstring) : Forall2 same_or_break s s.
Proof. induction s; constructor; [by left|done]. Qed.

Lemma groups_same_or_break (gs : list (list jsstring)) :
  Forall (fun g => g <> []) gs ->
  Forall2 same_or_break (join [SP] (concat gs)) (join [LF] (map (join [SP]) gs)).
Proof.
  induction gs as [|g gs IH]; intros Hne; [constructor|].
  apply Forall_cons in Hne as [Hg Hgs].
  destruct gs as [|g' gs].
  - simpl. rewrite app_nil_r. apply Forall2_same_or_break_refl.
  - apply Forall_cons in Hgs as Hgs'. destruct Hgs' as [Hg' _].
    change (concat (g :: g' :: gs)) with (g ++ concat (g' :: gs)).
    rewrite join_app; [|done|by destruct g'].
    rewrite map_cons, join_cons by done.
    apply Forall2_app; [apply Forall2_same_or_break_refl|].
    apply Forall2_app; [|by apply IH].
    constructor; [by right|constructor].
Qed.

Lemma wrapText_same_or_break text m :
  Forall2 same_or_break text (Part0a.wrapText text m).
Proof.
  destruct (wrapText_keeps_tokens text m) as (groups & Hcat & Hne & Hout).
  rewrite Hout. rewrite <- (join_split SP text) at 1. rewrite <- Hcat.
  by apply groups_same_or_break.
Qed.

Lemma breaks_to_spaces (text out : jsstring) :
  Forall2 same_or_break text out -> LF ∉ text ->
  replaceAll LF [SP] out = text.
Proof.
  induction 1 as [|a b text out Hab _ IH]; intros Hlf; [done|].
  apply not_elem_of_cons in Hlf as [Ha Hlf].
  unfold replaceAll in *. simpl. rewrite IH by done.
  destruct Hab as [->|[-> ->]]; [|done].
  destruct (N.eqb_spec b LF) as [->|_]; done.
Qed.

(** C10, as stated, fails on a text that has a line feed of its own: the
    replacement turns that one into a space as well. *)
Lemma wrapText_line_feed_counterexample :
  replaceAll LF [SP] (Server.wrapText (js "a" ++ [LF] ++ js "b") 30)
  <> js "a" ++ [LF] ++ js "b"
  /\ replaceAll LF [SP] (Part0a.wrapText (js "a" ++ [LF] ++ js "b") 50)
     <> js "a" ++ [LF] ++ js "b"
  /\ replaceAll LF [SP] (Part0b.wrapText (js "a" ++ [LF] ++ js "b") 30)
     <> js "a" ++ [LF] ++ js "b".
Proof. vm_compute. repeat split; discriminate. Qed.

(** C10, amended. For every text without a line feed and every
    [maxLength], replacing each line feed of the output of [wrapText] by a
    space gives the text back exactly. *)
Theorem wrapText_breaks_to_spaces (text : jsstring) (maxLength : Z) :
  LF ∉ text ->
  replaceAll LF [SP] (Server.wrapText text maxLength) = text
  /\ replaceAll LF [SP] (Part0a.wrapText text maxLength) = text
  /\ replaceAll LF [SP] (Part0b.wrapText text maxLength) = text.
Proof.
  intros Hlf. rewrite wrapText_concat_sum.
  change (Part0b.wrapText text maxLength) with (Part0a.wrapText text maxLength).
  pose proof (breaks_to_spaces _ _ (wrapText_same_or_break text maxLength) Hlf).
  done.
Qed.

Lemma wrapText_breaks_to_spaces_witness :
  (LF ∉ js "Address: 1 Main St")
  /\ replaceAll LF [SP] (Server.wrapText (js "Address: 1 Main St") 10)
     = js "Address: 1 Main St"
  /\ replaceAll LF [SP] (Part0a.wrapText (js "Address: 1 Main St") 10)
     = js "Address: 1 Main St"
  /\ replaceAll LF [SP] (Part0b.wrapText (js "Address: 1 Main St") 10)
     = js "Address: 1 Main St".
Proof.
  assert (Hlf : LF ∉ js "Address: 1 Main St").
  { apply (bool_decide_unpack _). vm_compute. exact I. }
  split; [exact Hlf|].
  apply (wrapText_breaks_to_spaces (js "Address: 1 Main St") 10 Hlf).
Defined.

Example wrapText_breaks_example :
  Server.wrapText (js "Address: 1 Main St") 10
  = js "Address: 1" ++ [LF] ++ js "Main St".
Proof. vm_compute. reflexivity. Qed.

(** ** escapeText, character by character *)

Lemma replaceAll_app c rep s t :
  replaceAll c rep (s ++ t) = replaceAll c rep s ++ replaceAll c rep t.
Proof. unfold replaceAll. apply flat_map_app. Qed.

Lemma replaceAll_flat_map c rep (f : char -> jsstring) s :
  replaceAll c rep (flat_map f s)
  = flat_map (fun x => replaceAll c rep (f x)) s.
Proof.
  induction s as [|x s IH]; [done|].
  simpl. by rewrite replaceAll_app, IH.
Qed.

Lemma replaceAll_single c rep s :
  replaceAll c rep s = flat_map (fun x => replaceAll c rep [x]) s.
Proof.
  unfold replaceAll. apply flat_map_ext. intros x. simpl.
  by rewrite app_nil_r.
Qed.

(** Case analysis of a character against the characters of the chains. *)
Ltac char_cases x :=
  destruct (N.eqb_spec x BSLASH) as [->|?]; [|
  destruct (N.eqb_spec x COLON) as [->|?]; [|
  destruct (N.eqb_spec x COMMA) as [->|?]; [|
  destruct (N.eqb_spec x DOT) as [->|?]; [|
  destruct (N.eqb_spec x QUOTE) as [->|?]; [|
  destruct (N.eqb_spec x LF) as [->|?]; [|
  destruct (N.eqb_spec x LOWER_N) as [->|?]]]]]]];
  try reflexivity.

Ltac char_neq :=
  repeat match goal with
         | H : ?x <> ?c |- context [N.eqb ?x ?c] =>
             rewrite (proj2 (N.eqb_neq x c) H)
         end.

Lemma Server_chain_char x :
  [x] |> replaceAll BSLASH [BSLASH; BSLASH]
      |> replaceAll COLON [BSLASH; COLON]
      |> replaceAll COMMA [BSLASH; COMMA]
      |> replaceAll DOT [BSLASH; DOT]
      |> replaceAll QUOTE [BSLASH; QUOTE]
      |> replaceAll LF [BSLASH; LOWER_N]
  = escape_char true true x.
Proof.
  char_cases x; unfold replaceAll, escape_char;
    repeat (progress (simpl; char_neq)); reflexivity.
Qed.

Lemma Part0b_chain_char x :
  [x] |> replaceAll BSLASH [BSLASH; BSLASH]
      |> replaceAll COLON [BSLASH; COLON]
      |> replaceAll QUOTE [BSLASH; QUOTE]
      |> replaceAll LF [BSLASH; LOWER_N]
  = escape_char false true x.
Proof.
  char_cases x; unfold replaceAll, escape_char;
    repeat (progress (simpl; char_neq)); reflexivity.
Qed.

Lemma Part0a_chain_char x :
  [x] |> replaceAll BSLASH [BSLASH; BSLASH]
      |> replaceAll COLON [BSLASH; COLON]
      |> replaceAll QUOTE [BSLASH; QUOTE]
  = escape_char false false x.
Proof.
  char_cases x; unfold replaceAll, escape_char;
    repeat (progress (simpl; char_neq)); reflexivity.
Qed.

Lemma Server_escapeText_profile text :
  Server.escapeText text = escape_profile true true text.
Proof.
  unfold Server.escapeText, escape_profile.
  rewrite (replaceAll_single BSLASH), !replaceAll_flat_map.
  apply flat_map_ext. intros x. apply Server_chain_char.
Qed.

Lemma Part0b_escapeText_profile text :
  Part0b.escapeText text = escape_profile false true text.
Proof.
  unfold Part0b.escapeText, escape_profile.
  rewrite (replaceAll_single BSLASH), !replaceAll_flat_map.
  apply flat_map_ext. intros x. apply Part0b_chain_char.
Qed.

Lemma Part0a_escapeText_profile text :
  Part0a.escapeText text = [QUOTE] ++ escape_profile false false text ++ [QUOTE].
Proof.
  unfold Part0a.escapeText, escape_profile. do 2 f_equal.
  rewrite (replaceAll_single BSLASH), !replaceAll_flat_map.
  apply flat_map_ext. intros x. apply Part0a_chain_char.
Qed.

Lemma no_unescaped_escape_char cd lf x r :
  no_unescaped (escape_char cd lf x ++ r) = no_unescaped r.
Proof.
  char_cases x; destruct cd, lf; try reflexivity;
    unfold escape_char; repeat (progress (simpl; char_neq)); reflexivity.
Qed.

Lemma no_unescaped_profile cd lf text :
  no_unescaped (escape_profile cd lf text) = true.
Proof.
  unfold escape_profile. induction text as [|x text IH]; [done|].
  simpl. by rewrite no_unescaped_escape_char.
Qed.

Lemma unescape_escape_char cd x r :
  unescape (escape_char cd true x ++ r) = x :: unescape r.
Proof.
  char_cases x; destruct cd; try reflexivity;
    unfold escape_char; repeat (progress (simpl; char_neq)); reflexivity.
Qed.

Lemma unescape_profile cd text :
  unescape (escape_profile cd true text) = text.
Proof.
  unfold escape_profile. induction text as [|x text IH]; [done|].
  simpl. by rewrite unescape_escape_char, IH.
Qed.

Example escapeText_example :
  Server.escapeText (js "Dr. O'Neil: a\b") = js "Dr\. O\'Neil\: a\\b".
Proof. vm_compute. reflexivity. Qed.

(** The order of the chain matters: with the backslash doubled last, the
    backslash put before a colon would be doubled too. *)
Example backslash_last_differs :
  applySubstitutions [(COLON, [BSLASH; COLON]); (BSLASH, [BSLASH; BSLASH])]
    [COLON]
  = [BSLASH; BSLASH; COLON]
  /\ applySubstitutions [(BSLASH, [BSLASH; BSLASH]); (COLON, [BSLASH; COLON])]
       [COLON]
     = [BSLASH; COLON].
Proof. split; reflexivity. Qed.

(** C1, as stated, fails on the first variant of part_000: its
    [escapeText] leaves a line feed as it is and returns the text between
    two single quotes, which are not escaped. *)
Lemma escapeText_line_feed_counterexample :
  Part0a.escapeText [LF] = [QUOTE; LF; QUOTE]
  /\ Part0a.escapeText [LF] <> escape_profile false true [LF]
  /\ no_unescaped (Part0a.escapeText [LF]) = false.
Proof. vm_compute. repeat split; discriminate. Qed.

(** C1, amended. In every variant [escapeText] is a chain of
    substitutions that starts with the doubling of the backslash and maps
    backslash, colon and single quote to themselves after a backslash.
    server.js also maps comma, period and line feed (the latter to
    backslash-n), the second variant of part_000 also the line feed; the
    first variant of part_000 leaves the line feed and puts the result
    between single quotes.  The substituted text (all of the output, or in
    the first variant of part_000 what stands between the two quotes) has no
    unescaped backslash, colon or single quote. *)
Theorem escapeText_substitutions (text : jsstring) :
  (Server.escapeText text
   = applySubstitutions
       [(BSLASH, [BSLASH; BSLASH]); (COLON, [BSLASH; COLON]);
        (COMMA, [BSLASH; COMMA]); (DOT, [BSLASH; DOT]);
        (QUOTE, [BSLASH; QUOTE]); (LF, [BSLASH; LOWER_N])] text
   /\ Server.escapeText text = escape_profile true true text
   /\ no_unescaped (Server.escapeText text) = true)
  /\ (Part0b.escapeText text
      = applySubstitutions
          [(BSLASH, [BSLASH; BSLASH]); (COLON, [BSLASH; COLON]);
           (QUOTE, [BSLASH; QUOTE]); (LF, [BSLASH; LOWER_N])] text
      /\ Part0b.escapeText text = escape_profile false true text
      /\ no_unescaped (Part0b.escapeText text) = true)
  /\ (Part0a.escapeText text
      = [QUOTE]
        ++ applySubstitutions
             [(BSLASH, [BSLASH; BSLASH]); (COLON, [BSLASH; COLON]);
              (QUOTE, [BSLASH; QUOTE])] text
        ++ [QUOTE]
      /\ Part0a.escapeText text
         = [QUOTE] ++ escape_profile false false text ++ [QUOTE]
      /\ no_unescaped (escape_profile false false text) = true).
Proof.
  split_and!; try reflexivity.
  - apply Server_escapeText_profile.
  - rewrite Server_escapeText_profile. apply no_unescaped_profile.
  - apply Part0b_escapeText_profile.
  - rewrite Part0b_escapeText_profile. apply no_unescaped_profile.
  - apply Part0a_escapeText_profile.
  - apply no_unescaped_profile.
Qed.

(** ** Unescaping *)

Lemma Server_escapeText_unescape text :
  unescape (Server.escapeText text) = text.
Proof. rewrite Server_escapeText_profile. apply unescape_profile. Qed.

Lemma Part0b_escapeText_unescape text :
  unescape (Part0b.escapeText text) = text.
Proof. rewrite Part0b_escapeText_profile. apply unescape_profile. Qed.

(** C4. Unescaping the output of [escapeText] (server.js and the second
    variant of part_000) gives the text back exactly, whatever backslashes,
    colons and quotes it holds; so [escapeText] is injective. *)
Theorem escapeText_round_trip (text other : jsstring) :
  unescape (Server.escapeText text) = text
  /\ unescape (Part0b.escapeText text) = text
  /\ (Server.escapeText text = Server.escapeText other -> text = other)
  /\ (Part0b.escapeText text = Part0b.escapeText other -> text = other).
Proof.
  split_and!.
  - apply Server_escapeText_unescape.
  - apply Part0b_escapeText_unescape.
  - intros Heq. apply (f_equal unescape) in Heq.
    by rewrite !Server_escapeText_unescape in Heq.
  - intros Heq. apply (f_equal unescape) in Heq.
    by rewrite !Part0b_escapeText_unescape in Heq.
Qed.

Lemma escapeText_round_trip_witness :
  Server.escapeText (js "C:\it's") = Server.escapeText (js "C:\it's")
  /\ Part0b.escapeText (js "C:\it's") = Part0b.escapeText (js "C:\it's")
  /\ unescape (Server.escapeText (js "C:\it's")) = js "C:\it's"
  /\ unescape (Part0b.escapeText (js "C:\it's")) = js "C:\it's"
  /\ js "C:\it's" = js "C:\it's".
Proof.
  destruct (escapeText_round_trip (js "C:\it's") (js "C:\it's"))
    as (Hs & Hb & Hinj & _).
  split_and!; [reflexivity|reflexivity|exact Hs|exact Hb|].
  apply Hinj. reflexivity.
Defined.

Example escapeText_newline_and_n :
  Server.escapeText [LF] = js "\n"
  /\ Server.escapeText (js "\n") = js "\\n"
  /\ unescape (js "\n") = [LF]
  /\ unescape (js "\\n") = js "\n".
Proof. vm_compute. repeat split. Qed.

(** ** The text block *)

Example Server_textBlock_janeDoe :
  Server.textBlock janeDoe
  = js "'Doctor\: Jane Doe\nMobile\: 555-1234\nAddress\: 1 Main St\nDegree\: MD'".
Proof. vm_compute. reflexivity. Qed.

Example Part0a_textBlock_janeDoe :
  Part0a.textBlock janeDoe
  = js "'Doctor\: Jane Doe" ++ [LF] ++ js "Mobile\: 555-1234" ++ [LF]
    ++ js "Address\: 1 Main St" ++ [LF] ++ js "Degree\: MD'".
Proof. vm_compute. reflexivity. Qed.

(** C2, as stated, fails on the second variant of part_000: the escaped
    block is not put between single quotes. *)
Lemma textBlock_unquoted_counterexample :
  Part0b.textBlock janeDoe
  = js "Doctor\: Jane Doe\nMobile\: 555-1234\nAddress\: 1 Main St\nDegree\: MD"
  /\ head (Part0b.textBlock janeDoe) <> Some QUOTE
  /\ Part0b.textBlock janeDoe
     <> [QUOTE]
        ++ Part0b.escapeText
             (labelledLines Part0b.wrapText Part0b.defaultMaxLength janeDoe)
        ++ [QUOTE].
Proof. vm_compute. repeat split; discriminate. Qed.

(** C2, amended. In every variant the text block is made of the lines
    "Doctor: name", "Mobile: mobile", "Address: address", "Degree: degree",
    each wrapped on its own at the width of the variant, joined by line
    feeds in that order and escaped as a whole.  In server.js and in the
    first variant of part_000 the escaped text stands between single
    quotes (in the latter the line feeds are not escaped); in the second
    variant of part_000 the escaped text is used as it is, without
    quotes. *)
Theorem textBlock_layout (textData : TextData) :
  Server.textBlock textData
  = [QUOTE]
    ++ Server.escapeText (labelledLines Server.wrapText 30 textData)
    ++ [QUOTE]
  /\ Part0a.textBlock textData
     = [QUOTE]
       ++ escape_profile false false (labelledLines Part0a.wrapText 50 textData)
       ++ [QUOTE]
  /\ Part0b.textBlock textData
     = Part0b.escapeText (labelledLines Part0b.wrapText 30 textData).
Proof.
  split_and!.
  - unfold Server.textBlock, labelledLines, Server.defaultMaxLength.
    cbn [join]. reflexivity.
  - unfold Part0a.textBlock, labelledLines, Part0a.defaultMaxLength.
    cbn [join]. apply Part0a_escapeText_profile.
  - unfold Part0b.textBlock, labelledLines, Part0b.defaultMaxLength.
    cbn [join]. reflexivity.
Qed.

(** ** The options of the output *)

(** C9. Whatever the paths and the text, the command of every variant has
    the output options -map [final] -map 1:a? -c:a copy -y, in this order;
    "final" is the buffer written by the last stage of the filter graph
    and input 1, whose audio is mapped, is the video. *)
Theorem outputOptions_fixed (dirname : jsstring) (videoPath backgroundPath : path)
    (outputPath : jsstring) (textData : TextData) :
  let expected :=
    [js "-map"; js "[final]"; js "-map"; js "1:a?"; js "-c:a"; js "copy";
     js "-y"] in
  let server :=
    Server.command dirname videoPath backgroundPath outputPath textData in
  let part0a :=
    Part0a.command dirname videoPath backgroundPath outputPath textData in
  let part0b := Part0b.command videoPath backgroundPath outputPath textData in
  (outputOptions server = expected
   /\ lastStageOutputs server = Some (js "final")
   /\ command_inputs server !! 1%nat = Some videoPath
   /\ output server = outputPath)
  /\ (outputOptions part0a = expected
      /\ lastStageOutputs part0a = Some (js "final")
      /\ command_inputs part0a !! 1%nat = Some videoPath
      /\ output part0a = outputPath)
  /\ (outputOptions part0b = expected
      /\ lastStageOutputs part0b = Some (js "final")
      /\ command_inputs part0b !! 1%nat = Some videoPath
      /\ output part0b = outputPath).
Proof. repeat split. Qed.

(** ** Requests that are refused *)

Example Server_keeps_uploads :
  Server.uploadHandler runWriting (js "/srv") requestWithoutAddress
    filesOfRequestWithoutAddress
  = (Some {| status := 400;
             sent := ErrorPayload (js "All fields and files are required.") |},
     filesOfRequestWithoutAddress).
Proof. reflexivity. Qed.

Lemma unlinkSync_present p fs :
  p ∈ uploads fs ->
  unlinkSync p fs
  = (Ok tt, {| uploads := uploads fs ∖ {[p]}; processed := processed fs |}).
Proof. intros Hp. unfold unlinkSync. by rewrite decide_True. Qed.

(** Removing the stored video, then the stored background if there is
    one, and going on. *)
Lemma unlink_both_then {A} v bg (k : M A) fs :
  v ∈ uploads fs ->
  (forall b, bg = Some b -> (b ∈ uploads fs) /\ b <> v) ->
  exists fs',
    (unlinkSync v ;; unlinkIfPresent bg ;; k) fs = k fs'
    /\ processed fs' = processed fs
    /\ (v ∉ uploads fs')
    /\ (forall b, bg = Some b -> b ∉ uploads fs')
    /\ (uploads fs' ⊆ uploads fs).
Proof.
  intros Hv Hbg. unfold mbind, M_bind, bind.
  rewrite unlinkSync_present by done.
  destruct bg as [b|]; simpl.
  - destruct (Hbg b eq_refl) as [Hb Hne]. clear Hbg.
    rewrite unlinkSync_present by (simpl; set_solver).
    eexists. split; [reflexivity|]. simpl.
    split_and!; [done|set_solver|intros ? [= <-]; set_solver|set_solver].
  - clear Hbg. eexists. split; [reflexivity|]. simpl.
    split_and!; [done|set_solver|done|set_solver].
Qed.

Example Part0a_removes_uploads :
  Part0a.uploadHandler runWriting (js "/srv") requestWithoutAddress
    filesOfRequestWithoutAddress
  = (Some {| status := 400;
             sent := ErrorPayload (js "All fields are required") |},
     {| uploads := {[ storedVideo; storedBackground ]}
                   ∖ {[ storedVideo ]} ∖ {[ storedBackground ]};
        processed := ∅ |}).
Proof. reflexivity. Qed.

(** The branch of part_000 that removes the stored files and answers. *)
Ltac refuse_and_clean Hin Hbg :=
  match goal with
  | |- context [(unlinkSync ?v ;; unlinkIfPresent ?bg ;; ?k) ?fs] =>
      let fs' := fresh "fs'" in
      let Heq := fresh "Heq" in
      let Hrest := fresh "Hrest" in
      destruct (unlink_both_then v bg k fs Hin Hbg) as (fs' & Heq & Hrest);
      rewrite Heq; exists fs'; split; [reflexivity|exact Hrest]
  end.

(** In the variants of part_000 a request without a video is answered
    before anything is removed: a background that was stored stays. *)
Example Part0a_no_video_keeps_background :
  Part0a.uploadHandler runWriting (js "/srv") requestWithoutVideo
    filesOfRequestWithoutVideo
  = (Some {| status := 400;
             sent := ErrorPayload (js "No video file uploaded") |},
     filesOfRequestWithoutVideo).
Proof. reflexivity. Qed.

(** C5, as stated, fails on server.js: a request without [address] is
    answered with 400, and both stored files are still there. *)
Lemma upload_keeps_files_counterexample :
  let h :=
    Server.uploadHandler runWriting (js "/srv") requestWithoutAddress
      filesOfRequestWithoutAddress in
  fieldsMissing (body requestWithoutAddress) = true
  /\ (status <$> h.1) = Some 400%Z
  /\ (storedVideo ∈ uploads h.2)
  /\ (storedBackground ∈ uploads h.2).
Proof. simpl. split_and!; [reflexivity|reflexivity|set_solver|set_solver]. Qed.

(** C5, amended. For a request that passed the upload middleware:
    server.js, where video and background are both required, answers a
    request that lacks a file or a text field with status 400 and an error
    message, writes nothing under the processed directory and leaves the
    stored files where they are.  The variants of part_000 check the video
    only: a request without a video is answered with status 400 and an
    error message and nothing is written under the processed directory;
    a request whose video is stored and that lacks a text field, when the
    stored video is under the uploads directory and the stored background,
    if there is one, is there under another path, has both removed, is
    answered with status 400 and an error message, and nothing is written
    under the processed directory. *)
Theorem upload_refuses_incomplete (run : Runner) (dirname : jsstring)
    (req : Request) (fs : FS) :
  err req = None ->
  (files req ≫= video = None \/ files req ≫= background = None
   \/ fieldsMissing (body req) = true ->
   Server.uploadHandler run dirname req fs
   = (Some {| status := 400;
              sent := ErrorPayload
                        (js "All fields and files are required.") |}, fs))
  /\ (files req ≫= video = None ->
      refused fs (Part0a.uploadHandler run dirname req fs)
        (js "No video file uploaded")
      /\ refused fs (Part0b.uploadHandler run dirname req fs)
           (js "No video uploaded."))
  /\ (forall v,
        files req ≫= video = Some v ->
        fieldsMissing (body req) = true ->
        v ∈ uploads fs ->
        (forall b, files req ≫= background = Some b ->
                   (b ∈ uploads fs) /\ b <> v) ->
        refusedAndCleaned v (files req ≫= background) fs
          (Part0a.uploadHandler run dirname req fs)
          (js "All fields are required")
        /\ refusedAndCleaned v (files req ≫= background) fs
             (Part0b.uploadHandler run dirname req fs)
             (js "All fields are required.")).
Proof.
  intros Herr. split_and!.
  - intros Hmiss. unfold Server.uploadHandler. rewrite Herr.
    destruct (files req ≫= video) as [v|], (files req ≫= background) as [b|];
      try reflexivity.
    destruct Hmiss as [Hmiss|[Hmiss|Hmiss]]; try discriminate.
    unfold fieldsMissing in Hmiss. by rewrite Hmiss.
  - intros Hv. split.
    + unfold Part0a.uploadHandler, Part0a.uploadBody. rewrite Herr, Hv.
      by eexists.
    + unfold Part0b.uploadHandler, Part0b.uploadBody. rewrite Herr, Hv.
      by eexists.
  - intros v Hv Hmiss Hin Hbg. unfold fieldsMissing in Hmiss. split.
    + unfold Part0a.uploadHandler, Part0a.uploadBody.
      rewrite Herr, Hv. cbv zeta. rewrite Hmiss.
      refuse_and_clean Hin Hbg.
    + unfold Part0b.uploadHandler, Part0b.uploadBody.
      rewrite Herr, Hv. cbv zeta. rewrite Hmiss.
      refuse_and_clean Hin Hbg.
Qed.

Lemma upload_refuses_incomplete_witness :
  err requestWithoutAddress = None
  /\ fieldsMissing (body requestWithoutAddress) = true
  /\ Server.uploadHandler runWriting (js "/srv") requestWithoutAddress
       filesOfRequestWithoutAddress
     = (Some {| status := 400;
                sent := ErrorPayload
                          (js "All fields and files are required.") |},
        filesOfRequestWithoutAddress)
  /\ refused filesOfRequestWithoutVideo
       (Part0a.uploadHandler runWriting (js "/srv") requestWithoutVideo
          filesOfRequestWithoutVideo)
       (js "No video file uploaded")
  /\ refusedAndCleaned storedVideo (Some storedBackground)
       filesOfRequestWithoutAddress
       (Part0a.uploadHandler runWriting (js "/srv") requestWithoutAddress
          filesOfRequestWithoutAddress)
       (js "All fields are required").
Proof.
  destruct (upload_refuses_incomplete runWriting (js "/srv")
              requestWithoutAddress filesOfRequestWithoutAddress eq_refl)
    as (Hserver & _ & Hfields).
  destruct (upload_refuses_incomplete runWriting (js "/srv")
              requestWithoutVideo filesOfRequestWithoutVideo eq_refl)
    as (_ & Hvideo & _).
  split_and!; [reflexivity|reflexivity| | |].
  - apply Hserver. right. right. reflexivity.
  - apply Hvideo. reflexivity.
  - apply (Hfields storedVideo); [reflexivity|reflexivity| |].
    + apply (bool_decide_unpack _). vm_compute. exact I.
    + intros b [= <-]. split; [|discriminate].
      apply (bool_decide_unpack _). vm_compute. exact I.
Defined.

(** * Further properties of the text formatter *)

(** ** Lines fit the width, and breaks are forced *)

Lemma first_word_snoc (g : list jsstring) w :
  g <> [] -> first_word (g ++ [w]) = first_word g.
Proof. by destruct g. Qed.

Lemma greedy_from_snoc m g1 rest g :
  greedy_from m g1 (rest ++ [g])
  <-> greedy_from m g1 rest
      /\ (forall g0, last (g1 :: rest) = Some g0 ->
          (m < len (join [SP] g0) + len (first_word g) + 1)%Z).
Proof.
  revert g1. induction rest as [|g2 rest IH]; intros g1.
  - simpl. split.
    + intros [H _]. split; [done|]. by intros g0 [= <-].
    + intros [_ H]. split; [|done]. by apply H.
  - change ((g2 :: rest) ++ [g]) with (g2 :: (rest ++ [g])).
    cbn [greedy_from]. rewrite IH, last_cons_cons. tauto.
Qed.

Lemma greedy_snoc m all g :
  greedy m (all ++ [g])
  <-> greedy m all
      /\ (forall g0, last all = Some g0 ->
          (m < len (join [SP] g0) + len (first_word g) + 1)%Z).
Proof.
  destruct all as [|g1 rest].
  - simpl. split; [|done]. intros _. split; [done|]. by intros g0 [=].
  - apply greedy_from_snoc.
Qed.

Lemma greedy_replace_last m gs g g' :
  first_word g' = first_word g ->
  greedy m (gs ++ [g]) -> greedy m (gs ++ [g']).
Proof. rewrite !greedy_snoc. intros ->. done. Qed.

(** The loop keeps both properties of the lines made so far, the open
    line included. *)
Lemma wrap_loop_lines m ws : forall (gs : list (list jsstring)) g,
  Forall (fits_or_single m) (gs ++ [g]) -> greedy m (gs ++ [g]) ->
  exists gs' g',
    fold_left (wrap_body_sum m) ws (map (join [SP]) gs, join [SP] g)
    = (map (join [SP]) gs', join [SP] g')
    /\ Forall (fits_or_single m) (gs' ++ [g'])
    /\ greedy m (gs' ++ [g'])
    /\ concat (gs' ++ [g']) = concat (gs ++ [g]) ++ ws.
Proof.
  induction ws as [|w ws IH]; intros gs g Hfit Hgreedy.
  - exists gs, g. by rewrite app_nil_r.
  - cbn [fold_left]. rewrite wrap_body_sum_unfold.
    apply Forall_app in Hfit as Hfit'. destruct Hfit' as [Hgs Hg].
    apply Forall_singleton in Hg as [Hne Hlen].
    destruct (Z.leb_spec (len (join [SP] g) + len w + 1) m) as [Hle|Hgt].
    + destruct (IH gs (g ++ [w])) as (gs' & g' & Hfold & Hfit' & Hgr' & Hcat).
      { apply Forall_app. split; [done|]. apply Forall_singleton.
        split; [by destruct g|]. left.
        rewrite join_snoc by done. rewrite !len_app.
        change (len [SP]) with 1%Z. lia. }
      { eapply greedy_replace_last; [|exact Hgreedy].
        by apply first_word_snoc. }
      exists gs', g'. rewrite join_snoc in Hfold by done.
      split_and!; [exact Hfold|done|done|].
      rewrite Hcat, !concat_app. simpl. by rewrite !app_nil_r, <- !app_assoc.
    + destruct (IH (gs ++ [g]) [w]) as (gs' & g' & Hfold & Hfit' & Hgr' & Hcat).
      { apply Forall_app. split; [done|]. apply Forall_singleton.
        split; [done|]. right. by exists w. }
      { apply greedy_snoc. split; [done|].
        intros g0. rewrite last_snoc. intros [= <-]. simpl. lia. }
      exists gs', g'. rewrite map_app in Hfold.
      split_and!; [exact Hfold|done|done|].
      rewrite Hcat, !concat_app. simpl. by rewrite !app_nil_r, <- !app_assoc.
Qed.

Lemma wrapText_lines text m :
  exists groups : list (list jsstring),
    concat groups = split SP text
    /\ Part0a.wrapText text m = join [LF] (map (join [SP]) groups)
    /\ Forall (fits_or_single m) groups
    /\ greedy m groups.
Proof.
  unfold Part0a.wrapText, wrap_loop, wrap_finish.
  destruct (wrap_loop_lines m (tail (split SP text)) []
              [first_word (split SP text)])
    as (gs & g & Hfold & Hfit & Hgr & Hcat).
  { apply Forall_singleton. split; [done|]. right. by eexists. }
  { done. }
  simpl in Hfold. rewrite Hfold. simpl fst; simpl snd.
  exists (gs ++ [g]). split_and!; [|by rewrite map_app|done|done].
  rewrite Hcat. simpl. symmetry. apply split_first_tail.
Qed.

(** X1. Every line of the output fits the width, unless it is made of a
    single token. *)
Theorem wrapText_lines_fit (text : jsstring) (maxLength : Z) :
  lines_fit maxLength text (Server.wrapText text maxLength)
  /\ lines_fit maxLength text (Part0a.wrapText text maxLength)
  /\ lines_fit maxLength text (Part0b.wrapText text maxLength).
Proof.
  rewrite wrapText_concat_sum.
  change (Part0b.wrapText text maxLength) with (Part0a.wrapText text maxLength).
  assert (lines_fit maxLength text (Part0a.wrapText text maxLength)); [|done].
  destruct (wrapText_lines text maxLength) as (groups & ? & ? & ? & _).
  by exists groups.
Qed.

(** X2. A line ends only where the next token, with its space, would have
    made the line longer than the width. *)
Theorem wrapText_breaks_forced (text : jsstring) (maxLength : Z) :
  breaks_forced maxLength text (Server.wrapText text maxLength)
  /\ breaks_forced maxLength text (Part0a.wrapText text maxLength)
  /\ breaks_forced maxLength text (Part0b.wrapText text maxLength).
Proof.
  rewrite wrapText_concat_sum.
  change (Part0b.wrapText text maxLength) with (Part0a.wrapText text maxLength).
  assert (breaks_forced maxLength text (Part0a.wrapText text maxLength)); [|done].
  destruct (wrapText_lines text maxLength) as (groups & ? & ? & Hfit & ?).
  exists groups. split_and!; [done| |done|done].
  eapply Forall_impl; [exact Hfit|]. by intros g [? _].
Qed.

(** X3. The output has the length of the input. *)
Theorem wrapText_length (text : jsstring) (maxLength : Z) :
  length (Server.wrapText text maxLength) = length text
  /\ length (Part0a.wrapText text maxLength) = length text
  /\ length (Part0b.wrapText text maxLength) = length text.
Proof.
  rewrite wrapText_concat_sum.
  change (Part0b.wrapText text maxLength) with (Part0a.wrapText text maxLength).
  pose proof (Forall2_length _ _ _ (wrapText_same_or_break text maxLength)).
  done.
Qed.

(** ** A width that nothing fits *)

Lemma wrap_loop_no_room m ws : forall lines cur,
  (m <= 0)%Z ->
  wrap_finish (fold_left (wrap_body_sum m) ws (lines, cur))
  = join [LF] (lines ++ cur :: ws).
Proof.
  induction ws as [|w ws IH]; intros lines cur Hm; [done|].
  cbn [fold_left]. rewrite wrap_body_sum_unfold.
  destruct (Z.leb_spec (len cur + len w + 1) m) as [Hle|_].
  - unfold len in Hle. lia.
  - rewrite IH by done. by rewrite <- app_assoc.
Qed.

Lemma join_split_other sep sep' s :
  join [sep'] (split sep s) = replaceAll sep [sep'] s.
Proof.
  induction s as [|c r IH]; [done|]. simpl split. unfold replaceAll in *.
  simpl flat_map. destruct (N.eqb_spec c sep) as [->|Hne].
  - rewrite join_cons by apply split_nonempty. by rewrite IH.
  - pose proof (split_nonempty sep r) as Hr.
    destruct (split sep r) as [|w ws]; [done|].
    rewrite join_cons_concat in *. simpl. by rewrite IH.
Qed.

(** X4. With a width of zero or less no token ever joins a line: every
    space of the input becomes a line feed. *)
Theorem wrapText_no_room (text : jsstring) (maxLength : Z) :
  (maxLength <= 0)%Z ->
  Server.wrapText text maxLength = replaceAll SP [LF] text
  /\ Part0a.wrapText text maxLength = replaceAll SP [LF] text
  /\ Part0b.wrapText text maxLength = replaceAll SP [LF] text.
Proof.
  intros Hm. rewrite wrapText_concat_sum.
  change (Part0b.wrapText text maxLength) with (Part0a.wrapText text maxLength).
  assert (Part0a.wrapText text maxLength = replaceAll SP [LF] text) as ->;
    [|done].
  unfold Part0a.wrapText, wrap_loop. rewrite wrap_loop_no_room by done.
  simpl app. rewrite <- split_first_tail. apply join_split_other.
Qed.

Lemma wrapText_no_room_witness :
  (0 <= 0)%Z
  /\ Server.wrapText (js "1 Main St") 0 = replaceAll SP [LF] (js "1 Main St")
  /\ Part0a.wrapText (js "1 Main St") 0 = replaceAll SP [LF] (js "1 Main St")
  /\ Part0b.wrapText (js "1 Main St") 0 = replaceAll SP [LF] (js "1 Main St").
Proof.
  split; [lia|]. apply (wrapText_no_room (js "1 Main St") 0). lia.
Defined.

(** ** Tokens *)

Lemma split_no_sep sep s : Forall (fun w => sep ∉ w) (split sep s).
Proof.
  induction s as [|c r IH]; simpl.
  - apply Forall_singleton. apply not_elem_of_nil.
  - destruct (N.eqb_spec c sep) as [->|Hne].
    + constructor; [apply not_elem_of_nil|done].
    + pose proof (split_nonempty sep r) as Hr.
      destruct (split sep r) as [|w ws]; [done|].
      apply Forall_cons in IH as [Hw Hws]. constructor; [|done].
      apply not_elem_of_cons. split; [congruence|done].
Qed.

Lemma split_length sep s :
  length (split sep s) = S (count_char sep s).
Proof.
  unfold count_char. induction s as [|c r IH]; [done|]. simpl.
  rewrite (N.eqb_sym sep c).
  destruct (N.eqb_spec c sep) as [->|Hne]; simpl.
  - by rewrite IH.
  - pose proof (split_nonempty sep r).
    destruct (split sep r) as [|w ws]; [done|]. exact IH.
Qed.

(** X5. [split] yields one token more than there are separators in the
    text, no token holds the separator, and joining the tokens with the
    separator gives the text back. *)
Theorem split_tokens (sep : char) (s : jsstring) :
  length (split sep s) = S (count_char sep s)
  /\ Forall (fun w => sep ∉ w) (split sep s)
  /\ join [sep] (split sep s) = s.
Proof.
  split_and!; [apply split_length|apply split_no_sep|apply join_split].
Qed.

Lemma split_app_sep sep w s :
  sep ∉ w -> split sep (w ++ sep :: s) = w :: split sep s.
Proof.
  induction w as [|c w IH]; intros Hw; simpl.
  - by rewrite N.eqb_refl.
  - apply not_elem_of_cons in Hw as [Hc Hw].
    destruct (N.eqb_spec sep c) as [->|_]; [done|].
    destruct (N.eqb_spec c sep) as [->|_]; [done|].
    by rewrite IH.
Qed.

Lemma split_no_sep_id sep w : sep ∉ w -> split sep w = [w].
Proof.
  induction w as [|c w IH]; intros Hw; [done|]. simpl.
  apply not_elem_of_cons in Hw as [Hc Hw].
  destruct (N.eqb_spec c sep) as [->|_]; [done|]. by rewrite IH.
Qed.

(** A non-empty list of tokens none of which holds the separator is
    found again by splitting their join. *)
Theorem split_join (sep : char) (tokens : list jsstring) :
  tokens <> [] ->
  Forall (fun w => sep ∉ w) tokens ->
  split sep (join [sep] tokens) = tokens.
Proof.
  induction tokens as [|w tokens IH]; intros Hne Hall; [done|].
  apply Forall_cons in Hall as [Hw Hall].
  destruct tokens as [|w' tokens].
  - simpl. by apply split_no_sep_id.
  - rewrite join_cons by done.
    change (w ++ [sep] ++ join [sep] (w' :: tokens))
      with (w ++ sep :: join [sep] (w' :: tokens)).
    rewrite split_app_sep by done. by rewrite IH.
Qed.

Lemma split_join_witness :
  [js "Main"; js ""; js "St"] <> []
  /\ Forall (fun w => SP ∉ w) [js "Main"; js ""; js "St"]
  /\ split SP (join [SP] [js "Main"; js ""; js "St"])
     = [js "Main"; js ""; js "St"].
Proof.
  assert (Hall : Forall (fun w => SP ∉ w) [js "Main"; js ""; js "St"]).
  { repeat constructor; apply (bool_decide_unpack _); vm_compute; exact I. }
  split_and!; [discriminate|exact Hall|].
  apply (split_join SP [js "Main"; js ""; js "St"]); [discriminate|exact Hall].
Defined.

(** * Further properties of the escaping *)

Lemma escape_char_length cd lf x :
  length (escape_char cd lf x) = if escaped_by cd lf x then 2%nat else 1%nat.
Proof.
  char_cases x; destruct cd, lf; try reflexivity;
    unfold escape_char, escaped_by;
    repeat (progress (simpl; char_neq)); reflexivity.
Qed.

Lemma escape_profile_length cd lf text :
  length (escape_profile cd lf text)
  = (length text + length (List.filter (escaped_by cd lf) text))%nat.
Proof.
  unfold escape_profile. induction text as [|x text IH]; [done|].
  simpl. rewrite length_app, IH, escape_char_length.
  destruct (escaped_by cd lf x); simpl; lia.
Qed.

(** X6. The output of [escapeText] is longer than its input by one
    character for each character that gets a backslash (and, in the first
    variant of part_000, by the two quotes). *)
Theorem escapeText_length (text : jsstring) :
  length (Server.escapeText text)
  = (length text + length (List.filter (escaped_by true true) text))%nat
  /\ length (Part0b.escapeText text)
     = (length text + length (List.filter (escaped_by false true) text))%nat
  /\ length (Part0a.escapeText text)
     = (2 + length text
        + length (List.filter (escaped_by false false) text))%nat.
Proof.
  rewrite Server_escapeText_profile, Part0b_escapeText_profile,
    Part0a_escapeText_profile.
  rewrite !length_app, !escape_profile_length. simpl. split_and!; lia.
Qed.

Lemma escape_char_plain cd lf x :
  escaped_by cd lf x = false -> escape_char cd lf x = [x].
Proof.
  char_cases x; destruct cd, lf; try discriminate; try reflexivity;
    intros _; unfold escape_char;
    repeat (progress (simpl; char_neq)); reflexivity.
Qed.

Lemma escape_profile_plain cd lf text :
  Forall (fun c => escaped_by cd lf c = false) text ->
  escape_profile cd lf text = text.
Proof.
  unfold escape_profile. induction 1 as [|x text Hx _ IH]; [done|].
  simpl. by rewrite escape_char_plain, IH.
Qed.

Lemma escaped_by_weaker cd lf x :
  escaped_by true true x = false -> escaped_by cd lf x = false.
Proof.
  unfold escaped_by. destruct cd, lf; simpl;
    destruct (N.eqb x BSLASH), (N.eqb x COLON), (N.eqb x COMMA),
      (N.eqb x DOT), (N.eqb x QUOTE), (N.eqb x LF); simpl; congruence.
Qed.

(** X7. A text without backslash, colon, comma, period, single quote and
    line feed is left as it is (and only put between quotes by the first
    variant of part_000). *)
Theorem escapeText_plain (text : jsstring) :
  Forall (fun c => escaped_by true true c = false) text ->
  Server.escapeText text = text
  /\ Part0b.escapeText text = text
  /\ Part0a.escapeText text = [QUOTE] ++ text ++ [QUOTE].
Proof.
  intros Hplain.
  rewrite Server_escapeText_profile, Part0b_escapeText_profile,
    Part0a_escapeText_profile.
  rewrite !escape_profile_plain; [done|..];
    (eapply Forall_impl; [exact Hplain|]); intros x Hx;
    by apply escaped_by_weaker.
Qed.

Lemma escapeText_plain_witness :
  Forall (fun c => escaped_by true true c = false) (js "Degree MD")
  /\ Server.escapeText (js "Degree MD") = js "Degree MD"
  /\ Part0b.escapeText (js "Degree MD") = js "Degree MD"
  /\ Part0a.escapeText (js "Degree MD") = [QUOTE] ++ js "Degree MD" ++ [QUOTE].
Proof.
  assert (Hplain : Forall (fun c => escaped_by true true c = false)
                     (js "Degree MD")).
  { repeat constructor. }
  split; [exact Hplain|].
  apply (escapeText_plain (js "Degree MD") Hplain).
Defined.

Lemma escape_profile_app cd lf s t :
  escape_profile cd lf (s ++ t)
  = escape_profile cd lf s ++ escape_profile cd lf t.
Proof. unfold escape_profile. apply flat_map_app. Qed.

Lemma Server_escapeText_app s t :
  Server.escapeText (s ++ t) = Server.escapeText s ++ Server.escapeText t.
Proof. rewrite !Server_escapeText_profile. apply escape_profile_app. Qed.

Lemma Part0b_escapeText_app s t :
  Part0b.escapeText (s ++ t) = Part0b.escapeText s ++ Part0b.escapeText t.
Proof. rewrite !Part0b_escapeText_profile. apply escape_profile_app. Qed.

(** X8. In server.js and in the second variant of part_000 escaping a
    concatenation is concatenating the escaped parts; so the text block is
    the four wrapped lines, each escaped on its own, with backslash-n
    between them. *)
Theorem textBlock_line_by_line (s t : jsstring) (textData : TextData) :
  Server.escapeText (s ++ t) = Server.escapeText s ++ Server.escapeText t
  /\ Part0b.escapeText (s ++ t) = Part0b.escapeText s ++ Part0b.escapeText t
  /\ Server.textBlock textData
     = [QUOTE]
       ++ join [BSLASH; LOWER_N]
            [ Server.escapeText
                (Server.wrapText
                   (js "Doctor: " ++ default [] (doctorName textData)) 30);
              Server.escapeText
                (Server.wrapText
                   (js "Mobile: " ++ default [] (mobile textData)) 30);
              Server.escapeText
                (Server.wrapText
                   (js "Address: " ++ default [] (address textData)) 30);
              Server.escapeText
                (Server.wrapText
                   (js "Degree: " ++ default [] (degree textData)) 30) ]
       ++ [QUOTE]
  /\ Part0b.textBlock textData
     = join [BSLASH; LOWER_N]
         [ Part0b.escapeText
             (Part0b.wrapText
                (js "Doctor: " ++ default [] (doctorName textData)) 30);
           Part0b.escapeText
             (Part0b.wrapText
                (js "Mobile: " ++ default [] (mobile textData)) 30);
           Part0b.escapeText
             (Part0b.wrapText
                (js "Address: " ++ default [] (address textData)) 30);
           Part0b.escapeText
             (Part0b.wrapText
                (js "Degree: " ++ default [] (degree textData)) 30) ].
Proof.
  split_and!.
  - apply Server_escapeText_app.
  - apply Part0b_escapeText_app.
  - unfold Server.textBlock, Server.defaultMaxLength. cbn [join].
    rewrite !Server_escapeText_app. change (Server.escapeText [LF])
      with [BSLASH; LOWER_N]. by rewrite <- ?app_assoc.
  - unfold Part0b.textBlock, Part0b.defaultMaxLength. cbn [join].
    rewrite !Part0b_escapeText_app. change (Part0b.escapeText [LF])
      with [BSLASH; LOWER_N]. by rewrite <- ?app_assoc.
Qed.

Lemma unescape_escape_char_plain_lf x r :
  unescape (escape_char false false x ++ r) = x :: unescape r.
Proof.
  char_cases x; unfold escape_char;
    repeat (progress (simpl; char_neq)); reflexivity.
Qed.

Lemma unescape_profile_plain_lf text :
  unescape (escape_profile false false text) = text.
Proof.
  unfold escape_profile. induction text as [|x text IH]; [done|].
  simpl. by rewrite unescape_escape_char_plain_lf, IH.
Qed.

(** X9. [escapeText] of the first variant of part_000 is injective:
    two texts with the same output are the same text. *)
Theorem Part0a_escapeText_injective (text other : jsstring) :
  Part0a.escapeText text = Part0a.escapeText other -> text = other.
Proof.
  rewrite !Part0a_escapeText_profile. intros Heq.
  apply app_inv_head in Heq. apply app_inv_tail in Heq.
  apply (f_equal unescape) in Heq.
  by rewrite !unescape_profile_plain_lf in Heq.
Qed.

Lemma Part0a_escapeText_injective_witness :
  Part0a.escapeText (js "it's") = Part0a.escapeText (js "it's")
  /\ js "it's" = js "it's".
Proof.
  split; [reflexivity|].
  apply (Part0a_escapeText_injective (js "it's") (js "it's")). reflexivity.
Defined.

Lemma escape_char_no_line_feed cd x : LF ∉ escape_char cd true x.
Proof.
  char_cases x; destruct cd; unfold escape_char;
    repeat (progress (simpl; char_neq));
    repeat (apply not_elem_of_cons; split; [done|]); apply not_elem_of_nil.
Qed.

Lemma escape_profile_no_line_feed cd text : LF ∉ escape_profile cd true text.
Proof.
  unfold escape_profile. induction text as [|x text IH]; simpl.
  - apply not_elem_of_nil.
  - apply not_elem_of_app. split; [apply escape_char_no_line_feed|done].
Qed.

(** X10. The output of [escapeText] of server.js and of the second variant
    of part_000 holds no line feed: the escaped text is a single line. *)
Theorem escapeText_no_line_feed (text : jsstring) :
  (LF ∉ Server.escapeText text) /\ (LF ∉ Part0b.escapeText text).
Proof.
  rewrite Server_escapeText_profile, Part0b_escapeText_profile.
  split; apply escape_profile_no_line_feed.
Qed.

(** * Further properties of the command *)

(** X11. The [text] option of the [drawtext] stage of every command is the
    text block of the variant.  In server.js and in the first variant of
    part_000 the text block is a text between two single quotes, and that
    text has no unescaped backslash, colon or quote (and in server.js no
    line feed); in the second variant of part_000 the text block has no
    quotes around it, no unescaped backslash, colon or quote and no line
    feed. *)
Theorem command_text_option (dirname : jsstring) (videoPath backgroundPath : path)
    (outputPath : jsstring) (textData : TextData) :
  (textOption
     (Server.command dirname videoPath backgroundPath outputPath textData)
   = Some (VStr (Server.textBlock textData))
   /\ exists inner,
        Server.textBlock textData = [QUOTE] ++ inner ++ [QUOTE]
        /\ inner = Server.escapeText (labelledLines Server.wrapText 30 textData)
        /\ no_unescaped inner = true /\ (LF ∉ inner))
  /\ (textOption
        (Part0a.command dirname videoPath backgroundPath outputPath textData)
      = Some (VStr (Part0a.textBlock textData))
      /\ exists inner,
           Part0a.textBlock textData = [QUOTE] ++ inner ++ [QUOTE]
           /\ inner
              = escape_profile false false
                  (labelledLines Part0a.wrapText 50 textData)
           /\ no_unescaped inner = true)
  /\ (textOption
        (Part0b.command videoPath backgroundPath outputPath textData)
      = Some (VStr (Part0b.textBlock textData))
      /\ Part0b.textBlock textData
         = Part0b.escapeText (labelledLines Part0b.wrapText 30 textData)
      /\ no_unescaped (Part0b.textBlock textData) = true
      /\ (LF ∉ Part0b.textBlock textData)).
Proof.
  split_and!; try reflexivity.
  - eexists. split_and!; [reflexivity|reflexivity|..];
      rewrite Server_escapeText_profile;
      [apply no_unescaped_profile|apply escape_profile_no_line_feed].
  - eexists. split_and!; [|reflexivity|apply no_unescaped_profile].
    unfold Part0a.textBlock. cbv zeta. apply Part0a_escapeText_profile.
  - unfold Part0b.textBlock. cbv zeta. rewrite Part0b_escapeText_profile.
    apply no_unescaped_profile.
  - unfold Part0b.textBlock. cbv zeta. rewrite Part0b_escapeText_profile.
    apply escape_profile_no_line_feed.
Qed.

(** * Further properties of the upload handler *)

(** With two paths the inputs are accepted and the promise is the run. *)
Lemma Server_process_paths run dirname v b outputPath textData :
  Server.processVideoWithBackground run dirname (Some v) (Some b)
    outputPath textData
  = run (Server.command dirname (Some v) (Some b) outputPath textData).
Proof. reflexivity. Qed.

Lemma Part0a_process_paths run dirname v b outputPath textData :
  Part0a.processVideoWithBackground run dirname (Some v) (Some b)
    outputPath textData
  = run (Part0a.command dirname (Some v) (Some b) outputPath textData).
Proof. reflexivity. Qed.

Lemma Part0b_process_paths run v b outputPath textData :
  Part0b.processVideoWithBackground run (Some v) (Some b) outputPath textData
  = run (Part0b.command (Some v) (Some b) outputPath textData).
Proof. reflexivity. Qed.

(** Without a background the first [.input] throws and nothing is run. *)
Lemma Part0a_process_null run dirname videoPath outputPath textData fs :
  Part0a.processVideoWithBackground run dirname videoPath None
    outputPath textData fs
  = (Throw nullInputMessage, fs).
Proof. reflexivity. Qed.

Lemma Part0b_process_null run videoPath outputPath textData fs :
  Part0b.processVideoWithBackground run videoPath None outputPath textData fs
  = (Throw nullInputMessage, fs).
Proof. reflexivity. Qed.

(** X12. When the upload middleware reports an error, every variant
    answers 400 with the message of that error, runs nothing and touches
    no file. *)
Theorem upload_middleware_error (run : Runner) (dirname : jsstring)
    (req : Request) (fs : FS) (message : jsstring) :
  err req = Some message ->
  let answer :=
    (Some {| status := 400; sent := ErrorPayload message |}, fs) in
  Server.uploadHandler run dirname req fs = answer
  /\ Part0a.uploadHandler run dirname req fs = answer
  /\ Part0b.uploadHandler run dirname req fs = answer.
Proof.
  intros Herr.
  unfold Server.uploadHandler, Part0a.uploadHandler, Part0a.uploadBody,
    Part0b.uploadHandler.
  rewrite Herr. done.
Qed.

Lemma upload_middleware_error_witness :
  let req := {| err := Some (js "File too large");
                files := None;
                body := janeDoe;
                now := js "1700000000001" |} in
  let answer :=
    (Some {| status := 400; sent := ErrorPayload (js "File too large") |},
     filesOfRequestWithoutVideo) in
  err req = Some (js "File too large")
  /\ Server.uploadHandler runWriting (js "/srv") req filesOfRequestWithoutVideo
     = answer
  /\ Part0a.uploadHandler runWriting (js "/srv") req filesOfRequestWithoutVideo
     = answer
  /\ Part0b.uploadHandler runWriting (js "/srv") req filesOfRequestWithoutVideo
     = answer.
Proof.
  intros req answer. split; [reflexivity|].
  apply (upload_middleware_error runWriting (js "/srv") req
           filesOfRequestWithoutVideo (js "File too large")).
  reflexivity.
Defined.

(** X13. server.js, complete request, the media tool succeeds and leaves
    both stored files under the uploads directory, under two different
    paths: the answer is 200 with the name of the output file and its
    download address, and the two stored files are removed. *)
Theorem Server_upload_success (run : Runner) (dirname : jsstring)
    (req : Request) (fs fs1 : FS) (v b : jsstring) :
  err req = None ->
  files req ≫= video = Some v ->
  files req ≫= background = Some b ->
  fieldsMissing (body req) = false ->
  let outputName := js "output_" ++ now req ++ js ".mp4" in
  run (Server.command dirname (Some v) (Some b)
         (path_join [Server.processedDir dirname; outputName]) (body req)) fs
  = (Ok tt, fs1) ->
  v ∈ uploads fs1 -> b ∈ uploads fs1 -> b <> v ->
  answeredAndCleaned v (Some b) fs1
    (Server.uploadHandler run dirname req fs)
    {| status := 200;
       sent := SuccessPayload (js "Video processed successfully.")
                 outputName (js "/processed/" ++ outputName) |}.
Proof.
  intros Herr Hv Hb Hfields outputName Hrun Hvin Hbin Hne.
  unfold Server.uploadHandler. rewrite Herr, Hv, Hb.
  unfold fieldsMissing in Hfields. rewrite Hfields. cbv zeta.
  rewrite Server_process_paths. unfold mbind, M_bind, bind.
  fold outputName. rewrite Hrun.
  rewrite unlinkSync_present by done.
  rewrite unlinkSync_present by (simpl; set_solver).
  eexists. split; [reflexivity|]. simpl.
  split_and!; [done|set_solver|intros ? [= <-]; set_solver|set_solver].
Qed.

Lemma Server_upload_success_witness :
  let outputName := js "output_1700000000001.mp4" in
  let cmd :=
    Server.command (js "/srv") (Some storedVideo) (Some storedBackground)
      (path_join [Server.processedDir (js "/srv"); outputName]) janeDoe in
  let fs1 := (runWriting cmd filesOfRequestWithoutAddress).2 in
  fieldsMissing (body completeRequest) = false
  /\ (storedVideo ∈ uploads fs1)
  /\ answeredAndCleaned storedVideo (Some storedBackground) fs1
       (Server.uploadHandler runWriting (js "/srv") completeRequest
          filesOfRequestWithoutAddress)
       {| status := 200;
          sent := SuccessPayload (js "Video processed successfully.")
                    outputName (js "/processed/" ++ outputName) |}.
Proof.
  intros outputName cmd fs1.
  assert (Hv : storedVideo ∈ uploads fs1).
  { apply (bool_decide_unpack _). vm_compute. exact I. }
  assert (Hb : storedBackground ∈ uploads fs1).
  { apply (bool_decide_unpack _). vm_compute. exact I. }
  split_and!; [reflexivity|exact Hv|].
  apply (Server_upload_success runWriting (js "/srv") completeRequest
           filesOfRequestWithoutAddress fs1 storedVideo storedBackground);
    [reflexivity|reflexivity|reflexivity|reflexivity|reflexivity
    |exact Hv|exact Hb|discriminate].
Defined.

(** After the media tool: the stored background, if any, then the stored
    video are removed, and the computation goes on. *)
Lemma unlink_background_video_then {A} v bg (k : M A) fs :
  v ∈ uploads fs ->
  (forall b, bg = Some b -> (b ∈ uploads fs) /\ b <> v) ->
  exists fs',
    (unlinkIfPresent bg ;; unlinkSync v ;; k) fs = k fs'
    /\ processed fs' = processed fs
    /\ (v ∉ uploads fs')
    /\ (forall b, bg = Some b -> b ∉ uploads fs')
    /\ (uploads fs' ⊆ uploads fs).
Proof.
  intros Hv Hbg. unfold mbind, M_bind, bind.
  destruct bg as [b|]; simpl.
  - destruct (Hbg b eq_refl) as [Hb Hne]. clear Hbg.
    rewrite unlinkSync_present by done.
    rewrite unlinkSync_present by (simpl; set_solver).
    eexists. split; [reflexivity|]. simpl.
    split_and!; [done|set_solver|intros ? [= <-]; set_solver|set_solver].
  - clear Hbg. rewrite unlinkSync_present by done.
    eexists. split; [reflexivity|]. simpl.
    split_and!; [done|set_solver|done|set_solver].
Qed.

(** X14. part_000, request with its video, its background and all four
    fields, the media tool succeeds and leaves both stored files under the
    uploads directory, under two different paths: the answer is 200 with
    the name of the output file and its download address, and the stored
    background and the stored video are removed. *)
Theorem Part0_upload_success (run : Runner) (dirname : jsstring)
    (req : Request) (fs fs1 : FS) (v b : jsstring) :
  err req = None ->
  files req ≫= video = Some v ->
  files req ≫= background = Some b ->
  fieldsMissing (body req) = false ->
  v ∈ uploads fs1 -> b ∈ uploads fs1 -> b <> v ->
  let outputName := js "output_" ++ now req ++ js ".mp4" in
  (run (Part0a.command dirname (Some v) (Some b)
          (path_join [Part0a.processedDir dirname; outputName]) (body req)) fs
   = (Ok tt, fs1) ->
   answeredAndCleaned v (Some b) fs1 (Part0a.uploadHandler run dirname req fs)
     {| status := 200;
        sent := SuccessPayload (js "Video processed successfully")
                  outputName (js "/processed/" ++ outputName) |})
  /\ (run (Part0b.command (Some v) (Some b)
             (path_join [Part0b.processedDir dirname; outputName]) (body req))
        fs
      = (Ok tt, fs1) ->
      answeredAndCleaned v (Some b) fs1 (Part0b.uploadHandler run dirname req fs)
        {| status := 200;
           sent := SuccessPayload (js "Video processed successfully.")
                     outputName (js "/processed/" ++ outputName) |}).
Proof.
  intros Herr Hv Hb Hfields Hvin Hbin Hne outputName.
  unfold fieldsMissing in Hfields.
  assert (Hbg : forall b', Some b = Some b' -> (b' ∈ uploads fs1) /\ b' <> v)
    by (by intros b' [= <-]).
  split; intros Hrun.
  - unfold Part0a.uploadHandler, Part0a.uploadBody.
    rewrite Herr, Hv, Hb. cbv zeta. rewrite Hfields.
    rewrite Part0a_process_paths.
    fold outputName. unfold mbind at 1. unfold M_bind at 1.
    unfold bind at 1. rewrite Hrun.
    match goal with
    | |- context [(unlinkIfPresent ?bg ;; unlinkSync v ;; ?k) fs1] =>
        destruct (unlink_background_video_then v bg k fs1 Hvin Hbg)
          as (fs' & Heq & Hrest)
    end.
    rewrite Heq. exists fs'. split; [reflexivity|exact Hrest].
  - unfold Part0b.uploadHandler, Part0b.uploadBody.
    rewrite Herr, Hv, Hb. cbv zeta. rewrite Hfields.
    rewrite Part0b_process_paths.
    fold outputName. unfold mbind at 1. unfold M_bind at 1.
    unfold bind at 1. rewrite Hrun.
    match goal with
    | |- context [(unlinkIfPresent ?bg ;; unlinkSync v ;; ?k) fs1] =>
        destruct (unlink_background_video_then v bg k fs1 Hvin Hbg)
          as (fs' & Heq & Hrest)
    end.
    rewrite Heq. exists fs'. split; [reflexivity|exact Hrest].
Qed.

Lemma Part0_upload_success_witness :
  let outputName := js "output_1700000000001.mp4" in
  let fs1 :=
    {| uploads := uploads filesOfRequestWithoutAddress;
       processed := {[ path_join [js "/srv/processed"; outputName] ]}
                    ∪ processed filesOfRequestWithoutAddress |} in
  fieldsMissing (body completeRequest) = false
  /\ (storedVideo ∈ uploads fs1)
  /\ (storedBackground ∈ uploads fs1)
  /\ storedBackground <> storedVideo
  /\ answeredAndCleaned storedVideo (Some storedBackground) fs1
       (Part0a.uploadHandler runWriting (js "/srv") completeRequest
          filesOfRequestWithoutAddress)
       {| status := 200;
          sent := SuccessPayload (js "Video processed successfully")
                    outputName (js "/processed/" ++ outputName) |}
  /\ answeredAndCleaned storedVideo (Some storedBackground) fs1
       (Part0b.uploadHandler runWriting (js "/srv") completeRequest
          filesOfRequestWithoutAddress)
       {| status := 200;
          sent := SuccessPayload (js "Video processed successfully.")
                    outputName (js "/processed/" ++ outputName) |}.
Proof.
  intros outputName fs1.
  assert (Hv : storedVideo ∈ uploads fs1).
  { apply (bool_decide_unpack _). vm_compute. exact I. }
  assert (Hb : storedBackground ∈ uploads fs1).
  { apply (bool_decide_unpack _). vm_compute. exact I. }
  destruct (Part0_upload_success runWriting (js "/srv") completeRequest
              filesOfRequestWithoutAddress fs1 storedVideo storedBackground)
    as [Ha Hb'];
    [reflexivity|reflexivity|reflexivity|reflexivity|exact Hv|exact Hb
    |discriminate|].
  split_and!; [reflexivity|exact Hv|exact Hb|discriminate
              |apply Ha; reflexivity|apply Hb'; reflexivity].
Defined.

(** X15. server.js, complete request, the media tool fails: the answer is
    500 with a fixed message, whatever the error said, and the handler
    removes nothing: the stored files stay as the tool left them. *)
Theorem Server_upload_failure (run : Runner) (dirname : jsstring)
    (req : Request) (fs fs1 : FS) (v b message : jsstring) :
  err req = None ->
  files req ≫= video = Some v ->
  files req ≫= background = Some b ->
  fieldsMissing (body req) = false ->
  run (Server.command dirname (Some v) (Some b)
         (path_join [Server.processedDir dirname;
                     js "output_" ++ now req ++ js ".mp4"]) (body req)) fs
  = (Throw message, fs1) ->
  Server.uploadHandler run dirname req fs
  = (Some {| status := 500;
             sent := ErrorPayload (js "Video processing failed.") |}, fs1).
Proof.
  intros Herr Hv Hb Hfields Hrun.
  unfold Server.uploadHandler. rewrite Herr, Hv, Hb.
  unfold fieldsMissing in Hfields. rewrite Hfields. cbv zeta.
  rewrite Server_process_paths. unfold mbind, M_bind, bind.
  by rewrite Hrun.
Qed.

Lemma Server_upload_failure_witness :
  fieldsMissing (body completeRequest) = false
  /\ Server.uploadHandler (runFailing (js "ffmpeg exited with code 1"))
       (js "/srv") completeRequest filesOfRequestWithoutAddress
     = (Some {| status := 500;
                sent := ErrorPayload (js "Video processing failed.") |},
        filesOfRequestWithoutAddress).
Proof.
  split; [reflexivity|].
  apply (Server_upload_failure (runFailing (js "ffmpeg exited with code 1"))
           (js "/srv") completeRequest filesOfRequestWithoutAddress
           filesOfRequestWithoutAddress storedVideo storedBackground
           (js "ffmpeg exited with code 1"));
    reflexivity.
Defined.

(** The [catch] block of part_000: the stored video, then the stored
    background if any, are removed. *)
Lemma cleanup_both v bg fs :
  v ∈ uploads fs ->
  (forall b, bg = Some b -> (b ∈ uploads fs) /\ b <> v) ->
  exists fs',
    (unlinkIfPresent (Some v) ;; unlinkIfPresent bg) fs = (Ok tt, fs')
    /\ processed fs' = processed fs
    /\ (v ∉ uploads fs')
    /\ (forall b, bg = Some b -> b ∉ uploads fs')
    /\ (uploads fs' ⊆ uploads fs).
Proof.
  intros Hv Hbg. unfold mbind, M_bind, bind. simpl.
  rewrite unlinkSync_present by done.
  destruct bg as [b|]; simpl.
  - destruct (Hbg b eq_refl) as [Hb Hne]. clear Hbg.
    rewrite unlinkSync_present by (simpl; set_solver).
    eexists. split; [reflexivity|]. simpl.
    split_and!; [done|set_solver|intros ? [= <-]; set_solver|set_solver].
  - clear Hbg. eexists. split; [reflexivity|]. simpl.
    split_and!; [done|set_solver|done|set_solver].
Qed.

(** X16. part_000, request with its video, its background and all four
    fields, the media tool fails and leaves both stored files under the
    uploads directory, under two different paths: the answer is 500 with
    the message of the error as it is, and the stored video and the stored
    background are removed. *)
Theorem Part0_upload_failure (run : Runner) (dirname : jsstring)
    (req : Request) (fs fs1 : FS) (v b message : jsstring) :
  err req = None ->
  files req ≫= video = Some v ->
  files req ≫= background = Some b ->
  fieldsMissing (body req) = false ->
  v ∈ uploads fs1 -> b ∈ uploads fs1 -> b <> v ->
  let outputName := js "output_" ++ now req ++ js ".mp4" in
  let answer := {| status := 500; sent := ErrorPayload message |} in
  (run (Part0a.command dirname (Some v) (Some b)
          (path_join [Part0a.processedDir dirname; outputName]) (body req)) fs
   = (Throw message, fs1) ->
   answeredAndCleaned v (Some b) fs1 (Part0a.uploadHandler run dirname req fs)
     answer)
  /\ (run (Part0b.command (Some v) (Some b)
             (path_join [Part0b.processedDir dirname; outputName]) (body req))
        fs
      = (Throw message, fs1) ->
      answeredAndCleaned v (Some b) fs1 (Part0b.uploadHandler run dirname req fs)
        answer).
Proof.
  intros Herr Hv Hb Hfields Hvin Hbin Hne outputName answer.
  unfold fieldsMissing in Hfields.
  assert (Hbg : forall b', Some b = Some b' -> (b' ∈ uploads fs1) /\ b' <> v)
    by (by intros b' [= <-]).
  destruct (cleanup_both v (Some b) fs1 Hvin Hbg) as (fs' & Heq & Hrest).
  split; intros Hrun.
  - unfold Part0a.uploadHandler, Part0a.uploadBody.
    rewrite Herr, Hv, Hb. cbv zeta. rewrite Hfields.
    rewrite Part0a_process_paths.
    fold outputName. unfold mbind at 1. unfold M_bind at 1.
    unfold bind at 1. rewrite Hrun. rewrite Heq.
    exists fs'. split; [reflexivity|exact Hrest].
  - unfold Part0b.uploadHandler, Part0b.uploadBody.
    rewrite Herr, Hv, Hb. cbv zeta. rewrite Hfields.
    rewrite Part0b_process_paths.
    fold outputName. unfold mbind at 1. unfold M_bind at 1.
    unfold bind at 1. rewrite Hrun. rewrite Heq.
    exists fs'. split; [reflexivity|exact Hrest].
Qed.

Lemma Part0_upload_failure_witness :
  let answer :=
    {| status := 500;
       sent := ErrorPayload (js "ffmpeg exited with code 1") |} in
  fieldsMissing (body completeRequest) = false
  /\ (storedVideo ∈ uploads filesOfRequestWithoutAddress)
  /\ (storedBackground ∈ uploads filesOfRequestWithoutAddress)
  /\ storedBackground <> storedVideo
  /\ answeredAndCleaned storedVideo (Some storedBackground)
       filesOfRequestWithoutAddress
       (Part0a.uploadHandler (runFailing (js "ffmpeg exited with code 1"))
          (js "/srv") completeRequest filesOfRequestWithoutAddress)
       answer
  /\ answeredAndCleaned storedVideo (Some storedBackground)
       filesOfRequestWithoutAddress
       (Part0b.uploadHandler (runFailing (js "ffmpeg exited with code 1"))
          (js "/srv") completeRequest filesOfRequestWithoutAddress)
       answer.
Proof.
  intros answer.
  assert (Hv : storedVideo ∈ uploads filesOfRequestWithoutAddress).
  { apply (bool_decide_unpack _). vm_compute. exact I. }
  assert (Hb : storedBackground ∈ uploads filesOfRequestWithoutAddress).
  { apply (bool_decide_unpack _). vm_compute. exact I. }
  destruct (Part0_upload_failure (runFailing (js "ffmpeg exited with code 1"))
              (js "/srv") completeRequest filesOfRequestWithoutAddress
              filesOfRequestWithoutAddress storedVideo storedBackground
              (js "ffmpeg exited with code 1"))
    as [Ha Hb'];
    [reflexivity|reflexivity|reflexivity|reflexivity|exact Hv|exact Hb
    |discriminate|].
  split_and!; [reflexivity|exact Hv|exact Hb|discriminate
              |apply Ha; reflexivity|apply Hb'; reflexivity].
Defined.

(** An error thrown by the first of two steps is the error of both. *)
Lemma mbind_throw {A B} (m : M A) (k : A -> M B) fs message fs' :
  m fs = (Throw message, fs') -> (m ≫= k) fs = (Throw message, fs').
Proof. unfold mbind, M_bind, bind. by intros ->. Qed.

(** X22. part_000, request with its video and all four fields but no
    background, the stored video being under the uploads directory: the
    command is given [null] as its first input, which throws before the
    media tool is run; the answer is 500 with the message of that error,
    the stored video is removed and nothing else changes. *)
Theorem Part0_no_background (run : Runner) (dirname : jsstring)
    (req : Request) (fs : FS) (v : jsstring) :
  err req = None ->
  files req ≫= video = Some v ->
  files req ≫= background = None ->
  fieldsMissing (body req) = false ->
  v ∈ uploads fs ->
  let answer :=
    (Some {| status := 500; sent := ErrorPayload nullInputMessage |},
     {| uploads := uploads fs ∖ {[v]}; processed := processed fs |}) in
  Part0a.uploadHandler run dirname req fs = answer
  /\ Part0b.uploadHandler run dirname req fs = answer.
Proof.
  intros Herr Hv Hb Hfields Hin answer. unfold fieldsMissing in Hfields.
  split.
  - unfold Part0a.uploadHandler, Part0a.uploadBody.
    rewrite Herr, Hv, Hb. cbv zeta. rewrite Hfields.
    erewrite mbind_throw by apply Part0a_process_null.
    unfold mbind, M_bind, bind. simpl.
    by rewrite unlinkSync_present.
  - unfold Part0b.uploadHandler, Part0b.uploadBody.
    rewrite Herr, Hv, Hb. cbv zeta. rewrite Hfields.
    erewrite mbind_throw by apply Part0b_process_null.
    unfold mbind, M_bind, bind. simpl.
    by rewrite unlinkSync_present.
Qed.

Lemma Part0_no_background_witness :
  let answer :=
    (Some {| status := 500; sent := ErrorPayload nullInputMessage |},
     {| uploads := uploads filesOfRequestWithoutBackground ∖ {[storedVideo]};
        processed := processed filesOfRequestWithoutBackground |}) in
  fieldsMissing (body requestWithoutBackground) = false
  /\ (storedVideo ∈ uploads filesOfRequestWithoutBackground)
  /\ Part0a.uploadHandler runWriting (js "/srv") requestWithoutBackground
       filesOfRequestWithoutBackground
     = answer
  /\ Part0b.uploadHandler runWriting (js "/srv") requestWithoutBackground
       filesOfRequestWithoutBackground
     = answer.
Proof.
  intros answer.
  assert (Hv : storedVideo ∈ uploads filesOfRequestWithoutBackground).
  { apply (bool_decide_unpack _). vm_compute. exact I. }
  split_and!; [reflexivity|exact Hv|..];
    apply (Part0_no_background runWriting (js "/srv") requestWithoutBackground
             filesOfRequestWithoutBackground storedVideo);
    first [reflexivity|exact Hv].
Defined.

(** ** Every answer *)

Lemma Part0a_uploadBody_status run dirname req fs r fs' :
  Part0a.uploadBody run dirname req fs = (Ok r, fs') ->
  status r = 200%Z \/ status r = 400%Z.
Proof.
  unfold Part0a.uploadBody, Part0a.processVideoWithBackground,
    mbind, M_bind, bind, ret.
  intros H. repeat case_match; simplify_eq; simpl; auto.
Qed.

Lemma Part0b_uploadBody_status run dirname req fs r fs' :
  Part0b.uploadBody run dirname req fs = (Ok r, fs') ->
  status r = 200%Z \/ status r = 400%Z.
Proof.
  unfold Part0b.uploadBody, Part0b.processVideoWithBackground,
    mbind, M_bind, bind, ret.
  intros H. repeat case_match; simplify_eq; simpl; auto.
Qed.

(** X17. server.js always answers, with status 200, 400 or 500, whatever
    the request, the files and the media tool.  The variants of part_000
    answer with one of these or do not answer at all. *)
Theorem upload_status (run : Runner) (dirname : jsstring) (req : Request)
    (fs : FS) :
  let known (s : option Z) :=
    s = Some 200%Z \/ s = Some 400%Z \/ s = Some 500%Z in
  known (statusOf (Server.uploadHandler run dirname req fs))
  /\ (known (statusOf (Part0a.uploadHandler run dirname req fs))
      \/ statusOf (Part0a.uploadHandler run dirname req fs) = None)
  /\ (known (statusOf (Part0b.uploadHandler run dirname req fs))
      \/ statusOf (Part0b.uploadHandler run dirname req fs) = None).
Proof.
  intros known. unfold known, statusOf. split_and!.
  - unfold Server.uploadHandler.
    repeat case_match; simplify_eq; simpl; auto.
  - unfold Part0a.uploadHandler.
    destruct (Part0a.uploadBody run dirname req fs) as [[r|m] fs'] eqn:Hbody.
    + apply Part0a_uploadBody_status in Hbody as [Hs|Hs]; simpl; rewrite Hs; auto.
    + repeat case_match; simplify_eq; simpl; auto.
  - unfold Part0b.uploadHandler.
    destruct (err req); [simpl; auto|].
    destruct (Part0b.uploadBody run dirname req fs) as [[r|m] fs'] eqn:Hbody.
    + apply Part0b_uploadBody_status in Hbody as [Hs|Hs]; simpl; rewrite Hs; auto.
    + repeat case_match; simplify_eq; simpl; auto.
Qed.

Lemma unlinkSync_absent p fs :
  p ∉ uploads fs ->
  unlinkSync p fs
  = (Throw (js "ENOENT: no such file or directory, unlink '" ++ p ++ js "'"),
     fs).
Proof. intros Hp. unfold unlinkSync. by rewrite decide_False. Qed.

(** X18. part_000: when the video and the background of a request were
    stored under one path and a text field is missing, the file is removed
    once, the second removal throws, the removal in the [catch] block
    throws again, and no response is sent. *)
Theorem Part0_same_path_no_answer (run : Runner) (dirname : jsstring)
    (req : Request) (fs : FS) (v : jsstring) :
  err req = None ->
  files req ≫= video = Some v ->
  files req ≫= background = Some v ->
  fieldsMissing (body req) = true ->
  v ∈ uploads fs ->
  let left := {| uploads := uploads fs ∖ {[v]}; processed := processed fs |} in
  Part0a.uploadHandler run dirname req fs = (None, left)
  /\ Part0b.uploadHandler run dirname req fs = (None, left).
Proof.
  intros Herr Hv Hb Hfields Hin left. unfold fieldsMissing in Hfields.
  assert (Hgone : v ∉ uploads left) by (simpl; set_solver).
  unfold Part0a.uploadHandler, Part0a.uploadBody,
    Part0b.uploadHandler, Part0b.uploadBody.
  rewrite Herr, Hv, Hb. cbv zeta. rewrite Hfields.
  unfold mbind, M_bind, bind. simpl.
  rewrite !unlinkSync_present by done. fold left.
  rewrite !unlinkSync_absent by done. done.
Qed.

Lemma Part0_same_path_no_answer_witness :
  let left :=
    {| uploads := uploads filesOfRequestWithoutAddress ∖ {[storedVideo]};
       processed := processed filesOfRequestWithoutAddress |} in
  fieldsMissing (body requestWithOnePath) = true
  /\ (storedVideo ∈ uploads filesOfRequestWithoutAddress)
  /\ Part0a.uploadHandler runWriting (js "/srv") requestWithOnePath
       filesOfRequestWithoutAddress
     = (None, left)
  /\ Part0b.uploadHandler runWriting (js "/srv") requestWithOnePath
       filesOfRequestWithoutAddress
     = (None, left).
Proof.
  intros left.
  assert (Hv : storedVideo ∈ uploads filesOfRequestWithoutAddress).
  { apply (bool_decide_unpack _). vm_compute. exact I. }
  split_and!; [reflexivity|exact Hv|..];
    apply (Part0_same_path_no_answer runWriting (js "/srv") requestWithOnePath
             filesOfRequestWithoutAddress storedVideo);
    first [reflexivity|exact Hv].
Defined.

(** ** The handler stores nothing *)

Lemma no_new_upload_ret {A} (a : A) : no_new_upload (ret a).
Proof. intros fs. done. Qed.

Lemma no_new_upload_bind {A B} (m : M A) (k : A -> M B) :
  no_new_upload m -> (forall a, no_new_upload (k a)) ->
  no_new_upload (m ≫= k).
Proof.
  intros Hm Hk fs. unfold mbind, M_bind, bind.
  specialize (Hm fs). destruct (m fs) as [[a|message] fs1]; simpl in *.
  - etrans; [apply Hk|exact Hm].
  - exact Hm.
Qed.

Lemma no_new_upload_unlinkSync p : no_new_upload (unlinkSync p).
Proof.
  intros fs. unfold unlinkSync. case_decide; simpl; set_solver.
Qed.

Lemma no_new_upload_unlinkIfPresent file :
  no_new_upload (unlinkIfPresent file).
Proof.
  destruct file; [apply no_new_upload_unlinkSync|apply no_new_upload_ret].
Qed.

Lemma no_new_upload_input source : no_new_upload (input source).
Proof. destruct source; intros fs; done. Qed.

Create HintDb uploads.
#[local] Hint Resolve no_new_upload_ret no_new_upload_unlinkSync
  no_new_upload_unlinkIfPresent no_new_upload_input : uploads.

Ltac no_new_upload_steps :=
  repeat first
    [ apply no_new_upload_bind; [|intros ?]
    | solve [auto with uploads] ].

Lemma Part0a_uploadBody_no_new_upload run dirname req :
  (forall cmd, no_new_upload (run cmd)) ->
  no_new_upload (Part0a.uploadBody run dirname req).
Proof.
  intros Hrun. unfold Part0a.uploadBody, Part0a.processVideoWithBackground.
  repeat case_match; no_new_upload_steps.
Qed.

Lemma Part0b_uploadBody_no_new_upload run dirname req :
  (forall cmd, no_new_upload (run cmd)) ->
  no_new_upload (Part0b.uploadBody run dirname req).
Proof.
  intros Hrun. unfold Part0b.uploadBody, Part0b.processVideoWithBackground.
  repeat case_match; no_new_upload_steps.
Qed.

Lemma catch_no_new_upload (cleanup : M unit)
    (answer : jsstring -> Response) fs (first : M Response) :
  no_new_upload first -> no_new_upload cleanup ->
  uploads
    (match first fs with
     | (Ok response, fs') => (Some response, fs')
     | (Throw message, fs') =>
         match cleanup fs' with
         | (Ok _, fs'') => (Some (answer message), fs'')
         | (Throw _, fs'') => (None, fs'')
         end
     end : Handled).2
  ⊆ uploads fs.
Proof.
  intros Hfirst Hclean. specialize (Hfirst fs).
  destruct (first fs) as [[r|message] fs']; simpl in *; [done|].
  specialize (Hclean fs').
  destruct (cleanup fs') as [[[]|?] fs'']; simpl in *; set_solver.
Qed.

(** X19. If the media tool leaves no new file under the uploads
    directory, neither does the handler: whatever the request, the files
    under the uploads directory afterwards were there before. *)
Theorem upload_no_new_upload (run : Runner) (dirname : jsstring)
    (req : Request) (fs : FS) :
  (forall cmd, no_new_upload (run cmd)) ->
  (uploads (Server.uploadHandler run dirname req fs).2 ⊆ uploads fs)
  /\ (uploads (Part0a.uploadHandler run dirname req fs).2 ⊆ uploads fs)
  /\ (uploads (Part0b.uploadHandler run dirname req fs).2 ⊆ uploads fs).
Proof.
  intros Hrun. split_and!.
  - unfold Server.uploadHandler, Server.processVideoWithBackground.
    repeat case_match; simplify_eq; simpl; try done.
    all: match goal with
         | H : ?m ?fs0 = (_, ?fs') |- uploads ?fs' ⊆ uploads ?fs0 =>
             assert (Hm : no_new_upload m) by no_new_upload_steps;
             specialize (Hm fs0); rewrite H in Hm; exact Hm
         end.
  - unfold Part0a.uploadHandler.
    apply catch_no_new_upload.
    + by apply Part0a_uploadBody_no_new_upload.
    + no_new_upload_steps.
  - unfold Part0b.uploadHandler. destruct (err req); [done|].
    apply catch_no_new_upload.
    + by apply Part0b_uploadBody_no_new_upload.
    + no_new_upload_steps.
Qed.

Lemma upload_no_new_upload_witness :
  (forall cmd, no_new_upload (runWriting cmd))
  /\ (uploads (Server.uploadHandler runWriting (js "/srv") completeRequest
                 filesOfRequestWithoutAddress).2
      ⊆ uploads filesOfRequestWithoutAddress)
  /\ (uploads (Part0a.uploadHandler runWriting (js "/srv") completeRequest
                 filesOfRequestWithoutAddress).2
      ⊆ uploads filesOfRequestWithoutAddress)
  /\ (uploads (Part0b.uploadHandler runWriting (js "/srv") completeRequest
                 filesOfRequestWithoutAddress).2
      ⊆ uploads filesOfRequestWithoutAddress).
Proof.
  assert (Hrun : forall cmd, no_new_upload (runWriting cmd)).
  { intros cmd fs. simpl. reflexivity. }
  split; [exact Hrun|].
  apply (upload_no_new_upload runWriting (js "/srv") completeRequest
           filesOfRequestWithoutAddress Hrun).
Defined.

(** * Properties of the upload middleware *)

Lemma existsb_eqb_elem_of x (class : list char) :
  existsb (N.eqb x) class = false -> x ∉ class.
Proof.
  induction class as [|c class IH]; simpl; intros H.
  - apply not_elem_of_nil.
  - apply orb_false_iff in H as [Hc Hrest].
    apply not_elem_of_cons. split; [by apply N.eqb_neq|by apply IH].
Qed.

Lemma replaceClass_safe (s : jsstring) :
  Forall (fun c => c ∉ unsafeInName) (replaceClass unsafeInName [UNDERSCORE] s).
Proof.
  unfold replaceClass. induction s as [|x s IH]; cbn [flat_map]; [constructor|].
  apply Forall_app. split; [|done].
  destruct (existsb (N.eqb x) unsafeInName) eqn:Hx;
    (constructor; [|constructor]).
  - assert (H : bool_decide (UNDERSCORE ∉ unsafeInName) = true) by reflexivity.
    by apply bool_decide_eq_true_1 in H.
  - by apply existsb_eqb_elem_of.
Qed.

Lemma replaceClass_length class (s : jsstring) :
  length (replaceClass class [UNDERSCORE] s) = length s.
Proof.
  unfold replaceClass. induction s as [|x s IH]; [done|]. simpl.
  rewrite length_app, IH. by destruct (existsb (N.eqb x) class).
Qed.

(** X20. The name under which a file is stored is the time stamp, an
    underscore and the original name with every character of the class
    replaced by an underscore: it is as long as these together and, the
    time stamp being digits, holds none of the characters of the class, in
    particular no slash and no backslash.  The three variants agree. *)
Theorem filename_safe (now : jsstring) (file : UploadedFile) :
  Forall (fun c => c ∉ unsafeInName) now ->
  Forall (fun c => c ∉ unsafeInName) (Server.filename now file)
  /\ length (Server.filename now file)
     = (length now + 1 + length (originalname file))%nat
  /\ Part0a.filename now file = Server.filename now file
  /\ Part0b.filename now file = Server.filename now file.
Proof.
  intros Hnow. unfold Server.filename. split_and!; [|..|done|done].
  - apply Forall_app. split; [done|]. apply Forall_app. split.
    + constructor; [|constructor].
      assert (H : bool_decide (UNDERSCORE ∉ unsafeInName) = true)
        by reflexivity.
      by apply bool_decide_eq_true_1 in H.
    + apply replaceClass_safe.
  - rewrite !length_app, replaceClass_length. simpl. lia.
Qed.

Lemma filename_safe_witness :
  let file := {| fieldname := js "video";
                 originalname := js "../a:b?.mp4";
                 mimetype := js "video/mp4" |} in
  Forall (fun c => c ∉ unsafeInName) (js "1700000000000")
  /\ Server.filename (js "1700000000000") file = js "1700000000000_.._a_b_.mp4"
  /\ Forall (fun c => c ∉ unsafeInName) (Server.filename (js "1700000000000") file).
Proof.
  intros file.
  assert (Hnow : Forall (fun c => c ∉ unsafeInName) (js "1700000000000")).
  { repeat constructor; apply (bool_decide_unpack _); vm_compute; exact I. }
  split_and!; [exact Hnow|reflexivity|].
  apply (filename_safe (js "1700000000000") file Hnow).
Defined.

(** X21. A file that the filter of server.js accepts is accepted by the
    filters of both variants of part_000 as well. *)
Theorem fileFilter_accepts_more (file : UploadedFile) :
  Server.fileFilter file = Ok true ->
  Part0a.fileFilter file = Ok true /\ Part0b.fileFilter file = Ok true.
Proof.
  unfold Server.fileFilter, Part0a.fileFilter, Part0b.fileFilter, includes.
  destruct (bool_decide_reflect (mimetype file ∈ Server.allowed)) as [Hin|];
    [intros _|discriminate].
  split; [by rewrite bool_decide_eq_true_2|].
  rewrite bool_decide_eq_true_2; [done|].
  unfold Server.allowed in Hin.
  repeat (apply elem_of_cons in Hin as [->|Hin];
          [apply (bool_decide_unpack _); vm_compute; exact I|]).
  by apply elem_of_nil in Hin.
Qed.

Lemma fileFilter_accepts_more_witness :
  let file := {| fieldname := js "background";
                 originalname := js "bg.png";
                 mimetype := js "image/png" |} in
  Server.fileFilter file = Ok true
  /\ Part0a.fileFilter file = Ok true
  /\ Part0b.fileFilter file = Ok true.
Proof.
  intros file. split; [reflexivity|].
  apply (fileFilter_accepts_more file). reflexivity.
Defined.
